(** * Response normalisation of the Google Ads MCP server

    A shallow embedding of [src/ads_mcp/utils.py]: the nested field
    resolver ([_get_attr_with_reserved_fallback], [get_nested_attr_safe]),
    the value normaliser ([_is_repeated_container], [format_output_value])
    and the row formatter ([format_output_row]), followed by the properties
    the specification states about them.

    The module is dynamically typed and works by probing its argument, so a
    Python value is modelled by what the module can observe of it: its class
    (name, module, [isinstance] tests), the outcome of reading each of its
    attributes, of [str], of iterating it, of [items()] and of
    [ListFields()].  Each of these may raise.  Values are finite trees, and
    observing a value does not change it.  Functions that may raise return a
    [result]; functions that also log return a result and the records
    logged. *)

From Stdlib Require Import List String Ascii ZArith Bool.
Import ListNotations.
Local Open Scope string_scope.
Local Open Scope list_scope.

Set Implicit Arguments.
Set Warnings "-register-all".

(** ** Exceptions, results and the log *)

(** A raised exception.  The values of this type stand for the instances of
    Python's [Exception] class, which is what every handler of the module
    ([except Exception]) catches; the exit signals of the interpreter
    (KeyboardInterrupt, SystemExit), which are not errors of the program,
    are not modelled.  [hasattr] and the three-argument
    [getattr] tell [AttributeError] from the rest, so it has a constructor
    of its own; its argument is the attribute name it carries. *)
Inductive exn : Type :=
| AttributeError (arg : string)
| OtherError (cls : string) (msg : string).

(** The outcome of an expression that may raise. *)
Inductive result (A : Type) : Type :=
| Ok (a : A)
| Raise (e : exn).

Arguments Ok {A} a.
Arguments Raise {A} e.

(** One call of [logger.exception].  The module logs at two places: in the
    handler of [format_output_value] (with the type of the value) and in the
    handler of [format_output_row] (with the field path).  Both calls sit in
    a [try] whose handler is [pass], so whether the logging call itself
    succeeds never changes what the functions return: the log below is the
    sequence of calls made. *)
Inductive log_record : Type :=
| LogValueFailed (type_module : string) (type_name : string) (e : exn)
| LogFieldFailed (attr : string) (e : exn).

Definition log := list log_record.

(** Computations that may raise and that log: a result together with the
    records logged until the result (or the exception) was produced. *)
Definition M (A : Type) : Type := (result A * log)%type.

Definition ret {A} (a : A) : M A := (Ok a, []).

Definition throw {A} (e : exn) : M A := (Raise e, []).

Definition bind {A B} (m : M A) (k : A -> M B) : M B :=
  match m with
  | (Ok a, l) => let (r, l') := k a in (r, l ++ l')
  | (Raise e, l) => (Raise e, l)
  end.

Definition lift {A} (r : result A) : M A := (r, []).

Definition tell (rec : log_record) : M unit := (Ok tt, [rec]).

(** [try: body / except Exception as e: handler e]. *)
Definition try_except {A} (body : M A) (handler : exn -> M A) : M A :=
  match body with
  | (Ok a, l) => (Ok a, l)
  | (Raise e, l) => let (r, l') := handler e in (r, l ++ l')
  end.

Declare Scope py_scope.
Delimit Scope py_scope with py.
Notation "x <- m ;; k" := (bind m (fun x => k))
  (at level 61, m at next level, right associativity) : py_scope.
Notation "m ;;; k" := (bind m (fun _ => k))
  (at level 61, right associativity) : py_scope.
Local Open Scope py_scope.

(** ** Python values *)

(** What the module observes of the class of a value: [type(value).__module__]
    (which may be missing or empty), [type(value).__name__], the outcome of
    its [isinstance] tests, and [callable]. *)
Record pyclass : Type := {
  cls_module : option string;
  cls_name : string;
  cls_is_str : bool;            (* isinstance(v, (str, bytes, bytearray)) *)
  cls_is_Mapping : bool;        (* isinstance(v, collections.abc.Mapping) *)
  cls_is_Enum : bool;           (* isinstance(v, proto.Enum) *)
  cls_is_Message : bool;        (* isinstance(v, proto.Message) *)
  cls_is_ProtobufMessage : bool;(* isinstance(v, google.protobuf.message.Message) *)
  cls_callable : bool           (* callable(v) *)
}.

(** What [getattr(value, "_pb", None)], [hasattr(pb, "ListFields")] and
    [pb.ListFields()] show of a proto-plus message: the raw message behind
    [_pb] is asked for nothing else.  A field descriptor stands by its
    [name]. *)
Inductive pb_probe (V : Type) : Type :=
| PbNone                                  (* no [_pb] attribute, or it is None *)
| PbNoListFields                          (* [hasattr(pb, "ListFields")] is False *)
| PbRaises (e : exn)                      (* one of the three steps raises *)
| PbListFields (fields : list (string * V)).

Arguments PbNone {V}.
Arguments PbNoListFields {V}.
Arguments PbRaises {V} e.
Arguments PbListFields {V} fields.

(** The behaviour of an object that is none of the built-in data below, as
    far as the module can observe it.  [V] is the type of the values it
    holds. *)
Record object (V : Type) : Type := {
  o_class : pyclass;
  o_attrs : list (string * result V);     (* getattr(o, name), name by name *)
  o_str : result string;                  (* str(o) *)
  o_items : list (V * V);                 (* what o.items() yields ... *)
  o_items_end : option exn;               (* ... and the exception that ends it, if any *)
  o_elems : list V;                       (* what iterating o yields ... *)
  o_elems_end : option exn;               (* ... and the exception that ends it, if any *)
  o_pb : pb_probe V;
  o_dir : list string                     (* dir(o) *)
}.

(** Python values: the built-in data the module produces and passes through
    (a [dict] is kept as its items in insertion order, with [str] keys), and
    every other object by its behaviour. *)
Inductive value : Type :=
| VNone
| VBool (b : bool)
| VInt (n : Z)
| VFloat (bits : Z)                       (* an IEEE double, by its bit pattern *)
| VStr (s : string)
| VBytes (data : list Byte.byte)
| VByteArray (data : list Byte.byte)
| VList (xs : list value)
| VDict (kvs : list (string * value))
| VObj (o : object value).

Definition dict := list (string * value).

(** ** Induction on values

    The induction principle of [value], with the hypotheses for the values
    an object, a list or a dict holds. *)

Section ValueInduction.

Variable P : value -> Prop.

Definition holds_in_attr (nr : string * result value) : Prop :=
  match snd nr with Ok x => P x | Raise _ => True end.

Definition holds_in_pb (pb : pb_probe value) : Prop :=
  match pb with
  | PbListFields fields => Forall (fun nx => P (snd nx)) fields
  | _ => True
  end.

Hypothesis HNone : P VNone.
Hypothesis HBool : forall b, P (VBool b).
Hypothesis HInt : forall n, P (VInt n).
Hypothesis HFloat : forall bits, P (VFloat bits).
Hypothesis HStr : forall s, P (VStr s).
Hypothesis HBytes : forall data, P (VBytes data).
Hypothesis HByteArray : forall data, P (VByteArray data).
Hypothesis HList : forall xs, Forall P xs -> P (VList xs).
Hypothesis HDict : forall kvs, Forall (fun kx => P (snd kx)) kvs -> P (VDict kvs).
Hypothesis HObj : forall o,
  Forall holds_in_attr (o_attrs o) ->
  Forall (fun kx => P (snd kx)) (o_items o) ->
  Forall P (o_elems o) ->
  holds_in_pb (o_pb o) ->
  P (VObj o).

Fixpoint value_nested_ind (v : value) : P v :=
  match v with
  | VNone => HNone
  | VBool b => HBool b
  | VInt n => HInt n
  | VFloat bits => HFloat bits
  | VStr s => HStr s
  | VBytes data => HBytes data
  | VByteArray data => HByteArray data
  | VList xs =>
      HList
        ((fix go (l : list value) : Forall P l :=
            match l with
            | [] => Forall_nil _
            | x :: r => Forall_cons x (value_nested_ind x) (go r)
            end) xs)
  | VDict kvs =>
      HDict
        ((fix go (l : list (string * value)) : Forall (fun kx => P (snd kx)) l :=
            match l with
            | [] => Forall_nil _
            | kx :: r => Forall_cons kx (value_nested_ind (snd kx)) (go r)
            end) kvs)
  | VObj o =>
      HObj o
        ((fix go (l : list (string * result value)) : Forall holds_in_attr l :=
            match l with
            | [] => Forall_nil _
            | nr :: r =>
                Forall_cons nr
                  (match snd nr as r0
                         return match r0 with Ok x => P x | Raise _ => True end
                   with
                   | Ok x => value_nested_ind x
                   | Raise _ => I
                   end) (go r)
            end) (o_attrs o))
        ((fix go (l : list (value * value)) : Forall (fun kx => P (snd kx)) l :=
            match l with
            | [] => Forall_nil _
            | kx :: r => Forall_cons kx (value_nested_ind (snd kx)) (go r)
            end) (o_items o))
        ((fix go (l : list value) : Forall P l :=
            match l with
            | [] => Forall_nil _
            | x :: r => Forall_cons x (value_nested_ind x) (go r)
            end) (o_elems o))
        (match o_pb o as pb return holds_in_pb pb with
         | PbListFields fields =>
             (fix go (l : list (string * value)) : Forall (fun nx => P (snd nx)) l :=
                match l with
                | [] => Forall_nil _
                | nx :: r => Forall_cons nx (value_nested_ind (snd nx)) (go r)
                end) fields
         | _ => I
         end)
  end.

End ValueInduction.

(** ** The Python runtime

    The parts of the interpreter and of the protobuf library the module
    calls but does not define: attribute access and [str] on built-in data,
    and the optional import of [google.protobuf] at the top of the module
    ([ProtobufMessage] and [MessageToDict] are both [None] when it fails). *)
Record runtime : Type := {
  builtin_getattr : value -> string -> result value;
  builtin_str : value -> result string;
  protobuf_imported : bool;
  MessageToDict : value -> result value
}.

(** ** Strings *)

(** [s.endswith("_")]. *)
Fixpoint ends_with_underscore (s : string) : bool :=
  match s with
  | EmptyString => false
  | String c EmptyString => Ascii.eqb c "_"
  | String _ s' => ends_with_underscore s'
  end.

(** [s[:-1]]. *)
Fixpoint drop_last (s : string) : string :=
  match s with
  | EmptyString => EmptyString
  | String _ EmptyString => EmptyString
  | String c s' => String c (drop_last s')
  end.

(** [s.split(sep)] for a one-character separator: never empty, and the empty
    string splits into one empty segment. *)
Fixpoint split_on (sep : ascii) (s : string) : list string :=
  match s with
  | EmptyString => [EmptyString]
  | String c s' =>
      if Ascii.eqb c sep then EmptyString :: split_on sep s'
      else match split_on sep s' with
           | [] => [String c EmptyString]
           | p :: ps => String c p :: ps
           end
  end.

(** [s.startswith(p)]. *)
Definition startswith (s p : string) : bool := String.prefix p s.

(** ** Observations on values *)

Fixpoint assoc {A} (k : string) (l : list (string * A)) : option A :=
  match l with
  | [] => None
  | (k', a) :: l' => if String.eqb k k' then Some a else assoc k l'
  end.

Definition is_none (v : value) : bool :=
  match v with VNone => true | _ => false end.

(** [type(v).__name__]. *)
Definition type_name (v : value) : string :=
  match v with
  | VNone => "NoneType"
  | VBool _ => "bool"
  | VInt _ => "int"
  | VFloat _ => "float"
  | VStr _ => "str"
  | VBytes _ => "bytes"
  | VByteArray _ => "bytearray"
  | VList _ => "list"
  | VDict _ => "dict"
  | VObj o => cls_name (o_class o)
  end.

(** [getattr(type(v), "__module__", "") or ""]. *)
Definition type_module (v : value) : string :=
  match v with
  | VObj o => match cls_module (o_class o) with Some m => m | None => "" end
  | _ => "builtins"
  end.

Definition isinstance_str (v : value) : bool :=
  match v with
  | VStr _ | VBytes _ | VByteArray _ => true
  | VObj o => cls_is_str (o_class o)
  | _ => false
  end.

Definition isinstance_Mapping (v : value) : bool :=
  match v with
  | VDict _ => true
  | VObj o => cls_is_Mapping (o_class o)
  | _ => false
  end.

Definition isinstance_Enum (v : value) : bool :=
  match v with VObj o => cls_is_Enum (o_class o) | _ => false end.

Definition isinstance_Message (v : value) : bool :=
  match v with VObj o => cls_is_Message (o_class o) | _ => false end.

Definition isinstance_ProtobufMessage (v : value) : bool :=
  match v with VObj o => cls_is_ProtobufMessage (o_class o) | _ => false end.

Definition callable (v : value) : bool :=
  match v with VObj o => cls_callable (o_class o) | _ => false end.

(** The exception that ends [for x in v], if any: lists end normally, and
    the other built-in data that can get as far as being iterated (numbers)
    are not iterable. *)
Definition iter_end (v : value) : option exn :=
  match v with
  | VList _ | VDict _ | VStr _ | VBytes _ | VByteArray _ => None
  | VObj o => o_elems_end o
  | _ => Some (OtherError "TypeError" "object is not iterable")
  end.

(** The exception that ends [for k, x in v.items()], if any. *)
Definition items_end (v : value) : option exn :=
  match v with
  | VDict _ => None
  | VObj o => o_items_end o
  | _ => Some (AttributeError "items")
  end.

Section Runtime.

Variable rt : runtime.

(** [getattr(v, name)]. *)
Definition py_getattr (v : value) (name : string) : result value :=
  match v with
  | VObj o =>
      match assoc name (o_attrs o) with
      | Some r => r
      | None => Raise (AttributeError name)
      end
  | _ => builtin_getattr rt v name
  end.

(** [hasattr(v, name)]: only [AttributeError] means no. *)
Definition py_hasattr (v : value) (name : string) : result bool :=
  match py_getattr v name with
  | Ok _ => Ok true
  | Raise (AttributeError _) => Ok false
  | Raise e => Raise e
  end.

(** [str(v)]. *)
Definition py_str (v : value) : result string :=
  match v with
  | VStr s => Ok s
  | VNone => Ok "None"
  | VBool true => Ok "True"
  | VBool false => Ok "False"
  | VObj o => o_str o
  | _ => builtin_str rt v
  end.

(** ** Nested field resolver *)

Definition _get_attr_with_reserved_fallback (obj : value) (name : string)
  : result value :=
  if is_none obj then Raise (AttributeError name)
  else
    match py_getattr obj name with
    | Ok v => Ok v
    | Raise _ =>
        match py_getattr obj (String.append name "_") with
        | Ok v => Ok v
        | Raise _ =>
            if ends_with_underscore name then
              match py_getattr obj (drop_last name) with
              | Ok v => Ok v
              | Raise _ => Raise (AttributeError name)
              end
            else Raise (AttributeError name)
        end
    end.

(** The loop of [get_nested_attr_safe] over the segments of the path. *)
Fixpoint resolve_parts (cur : value) (parts : list string) : result value :=
  match parts with
  | [] => Ok cur
  | part :: rest =>
      match _get_attr_with_reserved_fallback cur part with
      | Ok v => resolve_parts v rest
      | Raise e => Raise e
      end
  end.

Definition get_nested_attr_safe (obj : value) (path : string) : result value :=
  resolve_parts obj (split_on "." path).

(** ** Dictionaries *)

(** [d[k] = w] on a dict kept in insertion order: a key that is present
    keeps its place and takes the new value, a new key goes to the end. *)
Fixpoint dict_set (k : string) (w : value) (d : dict) : dict :=
  match d with
  | [] => [(k, w)]
  | (k', w') :: d' =>
      if String.eqb k k' then (k', w) :: d'
      else (k', w') :: dict_set k w d'
  end.

Definition dict_get (k : string) (d : dict) : option value := assoc k d.

Definition dict_keys (d : dict) : list string := map fst d.

(** ** Value normaliser *)

Definition _is_repeated_container (v : value) : result bool :=
  if is_none v then Ok false
  else if isinstance_str v then Ok false
  else if isinstance_Mapping v then Ok false
  else if isinstance_Message v then Ok false
  else if startswith (type_module v) "google._upb._message"
          && startswith (type_name v) "Repeated" then Ok true
  else
    match py_hasattr v "__iter__" with
    | Raise e => Raise e
    | Ok true => Ok true
    | Ok false =>
        match py_hasattr v "__len__" with
        | Raise e => Raise e
        | Ok false => Ok false
        | Ok true =>
            match py_hasattr v "__getitem__" with
            | Raise e => Raise e
            | Ok b => Ok b
            end
        end
    end.

(** The outcomes of the recursive calls of [format_output_value] on the
    values held by a value, in the places the function may reach them. *)
Record subresults : Type := {
  sub_items : list (value * M value);   (* k and the call on x, for k, x in v.items() *)
  sub_elems : list (M value);           (* the calls on the elements of v *)
  sub_pb : pb_probe (M value);          (* the calls on the fields ListFields() lists *)
  sub_attrs : list (string * result (value * M value))
                                        (* getattr(v, name) and the call on it *)
}.

Definition no_subresults : subresults :=
  {| sub_items := []; sub_elems := []; sub_pb := PbNone; sub_attrs := [] |}.

(** [{str(k): format_output_value(x) for k, x in value.items()}], item by
    item. *)
Fixpoint convert_items (items : list (value * M value)) (out : dict) : M dict :=
  match items with
  | [] => ret out
  | (k, call) :: rest =>
      key <- lift (py_str k) ;;
      w <- call ;;
      convert_items rest (dict_set key w out)
  end.

(** [[format_output_value(x) for x in value]], element by element. *)
Fixpoint convert_elems (elems : list (M value)) : M (list value) :=
  match elems with
  | [] => ret []
  | call :: rest =>
      w <- call ;;
      ws <- convert_elems rest ;;
      ret (w :: ws)
  end.

(** The loop over [pb.ListFields()]. *)
Fixpoint convert_fields (fields : list (string * M value)) (out : dict) : M dict :=
  match fields with
  | [] => ret out
  | (name, call) :: rest =>
      w <- call ;;
      convert_fields rest (dict_set name w out)
  end.

(** The best-effort scan over [dir(value)]. *)
Fixpoint scan_attrs (attrs : list (string * result (value * M value)))
    (names : list string) (out : dict) : M dict :=
  match names with
  | [] => ret out
  | attr :: rest =>
      if startswith attr "_" then scan_attrs attrs rest out
      else
        match assoc attr attrs with
        | None | Some (Raise _) => scan_attrs attrs rest out
        | Some (Ok (x, call)) =>
            if callable x then scan_attrs attrs rest out
            else w <- call ;; scan_attrs attrs rest (dict_set attr w out)
        end
  end.

Definition raise_if_some (e : option exn) : M unit :=
  match e with
  | Some e => throw e
  | None => ret tt
  end.

(** The [try] block of [format_output_value], given the outcomes of its
    recursive calls. *)
Definition format_output_value_try (v : value) (sub : subresults) : M value :=
  if is_none v then ret VNone
  else if isinstance_Enum v then lift (py_getattr v "name")
  else
    text <- (if String.eqb (type_name v) "AdTextAsset"
             then lift (py_hasattr v "text") else ret false) ;;
    if text then lift (py_getattr v "text")
    else if isinstance_Mapping v then
      out <- convert_items (sub_items sub) [] ;;
      raise_if_some (items_end v) ;;;
      ret (VDict out)
    else
      repeated <- lift (_is_repeated_container v) ;;
      if repeated then
        ws <- convert_elems (sub_elems sub) ;;
        raise_if_some (iter_end v) ;;;
        ret (VList ws)
      else if isinstance_Message v then
        match sub_pb sub with
        | PbRaises e => throw e
        | PbListFields fields =>
            out <- convert_fields fields [] ;;
            ret (VDict out)
        | PbNone | PbNoListFields =>
            out <- scan_attrs (sub_attrs sub)
                     (match v with VObj o => o_dir o | _ => [] end) [] ;;
            ret (VDict out)
        end
      else if protobuf_imported rt && isinstance_ProtobufMessage v then
        lift (MessageToDict rt v)
      else ret v.

(** Its handler: log the failure with the type of the value, return
    [str(value)]. *)
Definition format_output_value_except (v : value) (e : exn) : M value :=
  tell (LogValueFailed (type_module v) (type_name v) e) ;;;
  s <- lift (py_str v) ;;
  ret (VStr s).

(** The body of [format_output_value]. *)
Definition format_output_value_body (v : value) (sub : subresults) : M value :=
  try_except (format_output_value_try v sub) (format_output_value_except v).

Fixpoint format_output_value (v : value) : M value :=
  format_output_value_body v
    match v with
    | VList xs =>
        {| sub_items := []; sub_elems := map format_output_value xs;
           sub_pb := PbNone; sub_attrs := [] |}
    | VDict kvs =>
        {| sub_items := map (fun kx => (VStr (fst kx), format_output_value (snd kx))) kvs;
           sub_elems := []; sub_pb := PbNone; sub_attrs := [] |}
    | VObj o =>
        {| sub_items := map (fun kx => (fst kx, format_output_value (snd kx))) (o_items o);
           sub_elems := map format_output_value (o_elems o);
           sub_pb := match o_pb o with
                     | PbNone => PbNone
                     | PbNoListFields => PbNoListFields
                     | PbRaises e => PbRaises e
                     | PbListFields fields =>
                         PbListFields
                           (map (fun nx => (fst nx, format_output_value (snd nx))) fields)
                     end;
           sub_attrs := map (fun nr => (fst nr,
                                        match snd nr with
                                        | Ok x => Ok (x, format_output_value x)
                                        | Raise e => Raise e
                                        end)) (o_attrs o) |}
    | _ => no_subresults
    end.

(** The recursive calls of [format_output_value] on a value, by name. *)
Definition subresults_of (v : value) : subresults :=
  match v with
  | VList xs =>
      {| sub_items := []; sub_elems := map format_output_value xs;
         sub_pb := PbNone; sub_attrs := [] |}
  | VDict kvs =>
      {| sub_items := map (fun kx => (VStr (fst kx), format_output_value (snd kx))) kvs;
         sub_elems := []; sub_pb := PbNone; sub_attrs := [] |}
  | VObj o =>
      {| sub_items := map (fun kx => (fst kx, format_output_value (snd kx))) (o_items o);
         sub_elems := map format_output_value (o_elems o);
         sub_pb := match o_pb o with
                   | PbNone => PbNone
                   | PbNoListFields => PbNoListFields
                   | PbRaises e => PbRaises e
                   | PbListFields fields =>
                       PbListFields
                         (map (fun nx => (fst nx, format_output_value (snd nx))) fields)
                   end;
         sub_attrs := map (fun nr => (fst nr,
                                      match snd nr with
                                      | Ok x => Ok (x, format_output_value x)
                                      | Raise e => Raise e
                                      end)) (o_attrs o) |}
  | _ => no_subresults
  end.

(** ** Row formatter *)

Fixpoint format_output_row_loop (row : value) (attributes : list string)
    (out : dict) : M dict :=
  match attributes with
  | [] => ret out
  | attr :: rest =>
      out' <- try_except
                (raw_val <- lift (get_nested_attr_safe row attr) ;;
                 w <- format_output_value raw_val ;;
                 ret (dict_set attr w out))
                (fun e =>
                   tell (LogFieldFailed attr e) ;;;
                   ret (dict_set attr VNone out)) ;;
      format_output_row_loop row rest out'
  end.

Definition format_output_row (row : value) (attributes : list string) : M dict :=
  format_output_row_loop row attributes [].

(** ** Notions of the specification *)

(** The three naming strategies of the specification (section 4.2), in the
    order it lists them: the segment as given, the segment with the marker
    appended, and, for a segment that ends with the marker, the segment with
    the marker stripped.  This definition follows the specification's words;
    the theorems below compare [_get_attr_with_reserved_fallback] with it. *)
Definition naming_strategies (name : string) : list string :=
  name :: String.append name "_"
       :: (if ends_with_underscore name then [drop_last name] else []).

(** The value of the first name, in order, that attribute access resolves. *)
Fixpoint first_success (obj : value) (names : list string) : option value :=
  match names with
  | [] => None
  | n :: rest =>
      match py_getattr obj n with
      | Ok v => Some v
      | Raise _ => first_success obj rest
      end
  end.


(** A value the normaliser returns as it is. *)
Definition fixed (w : value) : Prop := fst (format_output_value w) = Ok w.

(** A call all of whose results are left alone by the normaliser. *)
Definition stable_call (call : M value) : Prop :=
  forall w l, call = (Ok w, l) -> fixed w.

(** An attribute whose value, if reading it succeeds, has a stable call. *)
Definition stable_attr (nr : string * result (value * M value)) : Prop :=
  match snd nr with
  | Ok xc => stable_call (snd xc)
  | Raise _ => True
  end.

(** A dict with one entry per key and values the normaliser leaves alone. *)
Definition stable_dict (d : dict) : Prop :=
  NoDup (dict_keys d) /\ Forall (fun kx => fixed (snd kx)) d.

(** What [format_output_row] computes for one path, before it is stored. *)
Definition field_value (row : value) (attr : string) : M value :=
  raw_val <- lift (get_nested_attr_safe row attr) ;;
  format_output_value raw_val.

(** What processing one path logs: the records of the normaliser, then the
    record of the row formatter when resolving or normalising raised. *)
Definition field_log (row : value) (attr : string) : log :=
  snd (field_value row attr)
  ++ match fst (field_value row attr) with
     | Ok _ => []
     | Raise e => [LogFieldFailed attr e]
     end.

(** The value [format_output_row] stores under a path: the normalised value,
    or None when resolving or normalising raised. *)
Definition cell (row : value) (attr : string) : value :=
  match fst (field_value row attr) with
  | Ok w => w
  | Raise _ => VNone
  end.

End Runtime.

(** The paths of a list in the order of their first occurrence. *)
Fixpoint first_occurrences_from (seen : list string) (l : list string)
  : list string :=
  match l with
  | [] => []
  | x :: rest =>
      if existsb (String.eqb x) seen then first_occurrences_from seen rest
      else x :: first_occurrences_from (x :: seen) rest
  end.

Definition first_occurrences (l : list string) : list string :=
  first_occurrences_from [] l.

(** A Normalized Value of the specification (section 3): null, a boolean, a
    number or a string, a sequence of Normalized Values, or a mapping from
    string keys, one entry per key, to Normalized Values. *)
Fixpoint distinct (l : list string) : bool :=
  match l with
  | [] => true
  | x :: rest => negb (existsb (String.eqb x) rest) && distinct rest
  end.

Fixpoint normalized (v : value) : bool :=
  match v with
  | VNone | VBool _ | VInt _ | VFloat _ | VStr _ => true
  | VList xs => forallb (fun x => normalized x) xs
  | VDict kvs =>
      distinct (map fst kvs) && forallb (fun kx => normalized (snd kx)) kvs
  | VBytes _ | VByteArray _ | VObj _ => false
  end.

(** An object whose iteration behaviour is replaced. *)
Definition with_elems (o : object value) (elems : list value)
    (elems_end : option exn) : object value :=
  {| o_class := o_class o; o_attrs := o_attrs o; o_str := o_str o;
     o_items := o_items o; o_items_end := o_items_end o;
     o_elems := elems; o_elems_end := elems_end;
     o_pb := o_pb o; o_dir := o_dir o |}.

(** The values of the Google Ads object model: the [name] of an enumeration
    member and the [text] of a text asset are strings, in the value and in
    every value it holds. *)
Definition is_text (r : option (result value)) : bool :=
  match r with
  | Some (Ok (VStr _)) => true
  | Some (Ok _) => false
  | _ => true
  end.

Fixpoint api_typed (v : value) : bool :=
  match v with
  | VList xs => forallb (fun x => api_typed x) xs
  | VDict kvs => forallb (fun kx => api_typed (snd kx)) kvs
  | VObj o =>
      (if cls_is_Enum (o_class o) then is_text (assoc "name" (o_attrs o)) else true)
      && (if String.eqb (cls_name (o_class o)) "AdTextAsset"
          then is_text (assoc "text" (o_attrs o)) else true)
      && forallb (fun nr => match snd nr with Ok x => api_typed x | Raise _ => true end)
           (o_attrs o)
      && forallb (fun kx => api_typed (snd kx)) (o_items o)
      && forallb (fun x => api_typed x) (o_elems o)
      && match o_pb o with
         | PbListFields fields => forallb (fun nx => api_typed (snd nx)) fields
         | _ => true
         end
  | _ => true
  end.

(** The built-in data of Python, as far as the normaliser probes it: lists
    have [__iter__], numbers have neither [__iter__] nor [__len__]. *)
Definition is_number (v : value) : bool :=
  match v with VBool _ | VInt _ | VFloat _ => true | _ => false end.

Definition standard_builtins (rt : runtime) : Prop :=
  (forall xs, py_hasattr rt (VList xs) "__iter__" = Ok true) /\
  (forall v, is_number v = true ->
     py_hasattr rt v "__iter__" = Ok false /\ py_hasattr rt v "__len__" = Ok false).

(** [MessageToDict] returns JSON data. *)
Definition json_MessageToDict (rt : runtime) : Prop :=
  forall m w, MessageToDict rt m = Ok w -> normalized w = true.

(** ** Sample values *)

Definition plain_class (module name : string) : pyclass :=
  {| cls_module := Some module; cls_name := name; cls_is_str := false;
     cls_is_Mapping := false; cls_is_Enum := false; cls_is_Message := false;
     cls_is_ProtobufMessage := false; cls_callable := false |}.

(** An object with attributes only: it has no [items], is not iterable and
    has no [_pb]. *)
Definition plain_object (c : pyclass) (attrs : list (string * result value))
    (str : result string) : value :=
  VObj {| o_class := c; o_attrs := attrs; o_str := str;
          o_items := []; o_items_end := Some (AttributeError "items");
          o_elems := [];
          o_elems_end := Some (OtherError "TypeError" "object is not iterable");
          o_pb := PbNone; o_dir := map fst attrs |}.

Definition method_wrapper : value :=
  VObj {| o_class := {| cls_module := Some "builtins"; cls_name := "method-wrapper";
                        cls_is_str := false; cls_is_Mapping := false;
                        cls_is_Enum := false; cls_is_Message := false;
                        cls_is_ProtobufMessage := false; cls_callable := true |};
          o_attrs := []; o_str := Ok "<method-wrapper>";
          o_items := []; o_items_end := Some (AttributeError "items");
          o_elems := [];
          o_elems_end := Some (OtherError "TypeError" "object is not iterable");
          o_pb := PbNone; o_dir := [] |}.

(** The class object [NoneType], which [None.__class__] evaluates to. *)
Definition NoneType : value :=
  VObj {| o_class := {| cls_module := Some "builtins"; cls_name := "type";
                        cls_is_str := false; cls_is_Mapping := false;
                        cls_is_Enum := false; cls_is_Message := false;
                        cls_is_ProtobufMessage := false; cls_callable := true |};
          o_attrs := [("__name__", Ok (VStr "NoneType"))];
          o_str := Ok "<class 'NoneType'>";
          o_items := []; o_items_end := Some (AttributeError "items");
          o_elems := [];
          o_elems_end := Some (OtherError "TypeError" "object is not iterable");
          o_pb := PbNone; o_dir := ["__name__"] |}.

(** A fragment of CPython: the sequence protocol of the built-in containers,
    [None.__class__], and a [str] that only knows small data. *)
Definition sample_getattr (v : value) (name : string) : result value :=
  match v with
  | VList _ | VDict _ | VStr _ | VBytes _ | VByteArray _ =>
      if String.eqb name "__iter__" || String.eqb name "__len__"
         || String.eqb name "__getitem__"
      then Ok method_wrapper else Raise (AttributeError name)
  | VNone =>
      if String.eqb name "__class__" then Ok NoneType
      else Raise (AttributeError name)
  | _ => Raise (AttributeError name)
  end.

Definition sample_runtime : runtime :=
  {| builtin_getattr := sample_getattr;
     builtin_str := fun v => match v with
                             | VInt 0 => Ok "0"
                             | VInt 1 => Ok "1"
                             | VList [] => Ok "[]"
                             | _ => Raise (OtherError "NotImplementedError" "str")
                             end;
     protobuf_imported := true;
     MessageToDict := fun _ => Ok (VDict []) |}.

Definition message_class (name : string) : pyclass :=
  {| cls_module := Some "google.ads.googleads.v21"; cls_name := name;
     cls_is_str := false; cls_is_Mapping := false; cls_is_Enum := false;
     cls_is_Message := true; cls_is_ProtobufMessage := false;
     cls_callable := false |}.

Definition enum_member (cls name : string) (number : Z) : value :=
  VObj {| o_class := {| cls_module := Some "google.ads.googleads.v21.enums";
                        cls_name := cls; cls_is_str := false;
                        cls_is_Mapping := false; cls_is_Enum := true;
                        cls_is_Message := false; cls_is_ProtobufMessage := false;
                        cls_callable := false |};
          o_attrs := [("name", Ok (VStr name)); ("value", Ok (VInt number))];
          o_str := Ok name;
          o_items := []; o_items_end := Some (AttributeError "items");
          o_elems := [];
          o_elems_end := Some (OtherError "TypeError" "object is not iterable");
          o_pb := PbNone; o_dir := ["name"; "value"] |}.

(** The ad of a row: proto-plus exposes its field [type] as [type_]. *)
Definition sample_ad : value :=
  plain_object (message_class "Ad")
    [("id", Ok (VInt 7));
     ("type_", Ok (enum_member "AdType" "RESPONSIVE_SEARCH_AD" 15))]
    (Ok "id: 7").


(** The campaign of a row; reading [budget] fails in a getter and
    [budget_] holds the value. *)
Definition sample_campaign : value :=
  plain_object (message_class "Campaign")
    [("id", Ok (VInt 123));
     ("name", Ok (VStr "Spring Sale"));
     ("status", Ok (enum_member "CampaignStatus" "ENABLED" 2));
     ("budget", Raise (OtherError "RuntimeError" "getter failed"));
     ("budget_", Ok (VInt 500));
     ("bidding_strategy", Ok VNone)]
    (Ok "id: 123").

Definition sample_row : value :=
  plain_object (message_class "GoogleAdsRow")
    [("campaign", Ok sample_campaign);
     ("ad_group_ad",
      Ok (plain_object (message_class "AdGroupAd") [("ad", Ok sample_ad)]
            (Ok "ad { id: 7 }")))]
    (Ok "campaign { id: 123 }").

(** A repeated container of the upb protobuf backend. *)
Definition repeated_scalar (xs : list value) : value :=
  VObj {| o_class := {| cls_module := Some "google._upb._message";
                        cls_name := "RepeatedScalarContainer";
                        cls_is_str := false; cls_is_Mapping := false;
                        cls_is_Enum := false; cls_is_Message := false;
                        cls_is_ProtobufMessage := false; cls_callable := false |};
          o_attrs := [("__len__", Ok method_wrapper);
                      ("__getitem__", Ok method_wrapper)];
          o_str := Ok "[...]";
          o_items := []; o_items_end := Some (AttributeError "items");
          o_elems := xs; o_elems_end := None;
          o_pb := PbNone; o_dir := [] |}.

(** A mapping whose [items()] raises and whose [__str__] raises too. *)
Definition broken_mapping : value :=
  VObj {| o_class := {| cls_module := Some "app.models"; cls_name := "LazyRecord";
                        cls_is_str := false; cls_is_Mapping := true;
                        cls_is_Enum := false; cls_is_Message := false;
                        cls_is_ProtobufMessage := false; cls_callable := false |};
          o_attrs := [];
          o_str := Raise (OtherError "RuntimeError" "__str__: connection closed");
          o_items := [];
          o_items_end := Some (OtherError "RuntimeError" "items: connection closed");
          o_elems := [];
          o_elems_end := Some (OtherError "RuntimeError" "iter: connection closed");
          o_pb := PbNone; o_dir := [] |}.

(** A proto-plus message that can also be iterated: it has [__iter__], and
    iterating it yields two numbers. *)
Definition iterable_message : object value :=
  {| o_class := message_class "Money";
     o_attrs := [("__iter__", Ok method_wrapper); ("units", Ok (VInt 5))];
     o_str := Ok "units: 5";
     o_items := []; o_items_end := Some (AttributeError "items");
     o_elems := [VInt 5; VInt 0]; o_elems_end := None;
     o_pb := PbListFields [("units", VInt 5)];
     o_dir := ["units"] |}.

(** An object of a class named AdTextAsset whose [text] is not a string but
    an enumeration member. *)
Definition odd_text_asset : value :=
  plain_object (plain_class "app.models" "AdTextAsset")
    [("text", Ok (enum_member "ServedAssetFieldType" "HEADLINE_1" 2))]
    (Ok "AdTextAsset").

(** A text asset of the object model. *)
Definition sample_text_asset : value :=
  plain_object (message_class "AdTextAsset")
    [("text", Ok (VStr "Buy Now"));
     ("pinned_field", Ok (enum_member "ServedAssetFieldType" "HEADLINE_1" 2))]
    (Ok "text: Buy Now").

(** A call all of whose results satisfy [Q], and a dict with one entry per
    key whose values satisfy [Q]. *)
Definition good_call (Q : value -> Prop) (call : M value) : Prop :=
  forall w l, call = (Ok w, l) -> Q w.

Definition good_dict (Q : value -> Prop) (d : dict) : Prop :=
  NoDup (dict_keys d) /\ Forall (fun kx => Q (snd kx)) d.

(** ** Credentials and the client ([src/ads_mcp/utils.py]) *)

(** [os.environ.get]. *)
Definition environ := string -> option string.

(** The keyword arguments [_create_credentials] passes to
    [google.oauth2.credentials.Credentials]. *)
Record Credentials : Type := {
  cred_token : option string;
  cred_refresh_token : option string;
  cred_token_uri : string;
  cred_client_id : option string;
  cred_client_secret : option string;
  cred_scopes : list string
}.

Definition _READ_ONLY_ADS_SCOPE : string :=
  "https://www.googleapis.com/auth/adwords".

Definition ValueError (msg : string) : exn := OtherError "ValueError" msg.

(** The truth value of what [os.environ.get] returns: None and the empty
    string are false. *)
Definition env_truthy (x : option string) : bool :=
  match x with
  | Some s => negb (String.eqb s "")
  | None => false
  end.

Definition _create_credentials (env : environ) : result Credentials :=
  let client_id := env "GOOGLE_ADS_CLIENT_ID" in
  let client_secret := env "GOOGLE_ADS_CLIENT_SECRET" in
  let refresh_token := env "GOOGLE_ADS_REFRESH_TOKEN" in
  if negb (forallb env_truthy [client_id; client_secret; refresh_token]) then
    Raise (ValueError
             "Missing OAuth credentials. Set GOOGLE_ADS_CLIENT_ID, GOOGLE_ADS_CLIENT_SECRET, and GOOGLE_ADS_REFRESH_TOKEN.")
  else
    Ok {| cred_token := None;
          cred_refresh_token := refresh_token;
          cred_token_uri := "https://oauth2.googleapis.com/token";
          cred_client_id := client_id;
          cred_client_secret := client_secret;
          cred_scopes := [_READ_ONLY_ADS_SCOPE] |}.

Definition _get_developer_token (env : environ) : result string :=
  match env "GOOGLE_ADS_DEVELOPER_TOKEN" with
  | None => Raise (ValueError "GOOGLE_ADS_DEVELOPER_TOKEN environment variable not set.")
  | Some dev_token => Ok dev_token
  end.

Definition _get_login_customer_id (env : environ) : option string :=
  env "GOOGLE_ADS_LOGIN_CUSTOMER_ID".

Section Client.

(** The constructor of [GoogleAdsClient], which belongs to the Google Ads
    library: it may refuse its arguments. *)
Variable client : Type.
Variable GoogleAdsClient : Credentials -> string -> option string -> result client.

(** The keyword arguments are evaluated in the order they are written. *)
Definition _get_googleads_client (env : environ) : result client :=
  match _create_credentials env with
  | Raise e => Raise e
  | Ok credentials =>
      match _get_developer_token env with
      | Raise e => Raise e
      | Ok developer_token =>
          GoogleAdsClient credentials developer_token (_get_login_customer_id env)
      end
  end.

End Client.

(** ** The dashboard ([src/streamlit-app/app.py]) *)

(** [st.session_state]: a dict from names to values, read and written as
    attributes. *)
Definition session := dict.

(** [if name not in st.session_state: st.session_state.name = default]. *)
Definition set_default (name : string) (default : value) (st : session) : session :=
  match dict_get name st with
  | None => dict_set name default st
  | Some _ => st
  end.

Definition init_session_state (st : session) : session :=
  let st := set_default "api_url" (VStr "") st in
  let st := set_default "api_token" (VStr "") st in
  let st := set_default "connected" (VBool false) st in
  let st := set_default "account_info" VNone st in
  set_default "last_result" VNone st.

(** [s.rstrip(c)] for one character [c]. *)
Fixpoint rstrip (c : ascii) (s : string) : string :=
  match s with
  | EmptyString => EmptyString
  | String a s' =>
      match rstrip c s' with
      | EmptyString => if Ascii.eqb a c then EmptyString else String a EmptyString
      | r => String a r
      end
  end.

(** An exception that leaves a call into the [requests] library, by the
    two handlers of [make_request]: a [requests.exceptions.JSONDecodeError]
    (itself a RequestException), any other RequestException, each given by
    [str(e)] and [e.response], or an exception that is not a
    RequestException at all (UnicodeEncodeError for a header that cannot be
    encoded, RecursionError from decoding, ...). *)
Inductive raised (response : Type) : Type :=
| JSONDecodeError (msg : string) (r : option response)
| RequestException (msg : string) (r : option response)
| NotRequestException (e : exn).

Arguments NotRequestException {response} e.

(** What [response.json()] does: return the decoded body or raise. *)
Inductive decoded (response : Type) : Type :=
| JsonData (j : value)
| JsonRaises (e : raised response).

Arguments JsonData {response} j.

(** A response of the [requests] library: the message of the HTTPError that
    [raise_for_status()] raises, if the status is an error; [text]; and
    [json()]. *)
Inductive response : Type := Build_response {
  resp_status_error : option string;
  resp_text : string;
  resp_json : decoded response
}.

(** What [requests.get] and [requests.post] do: return a response or
    raise. *)
Inductive sent : Type :=
| Replied (r : response)
| SendRaises (e : raised response).

Inductive http_method : Type := GET | POST.

Record request : Type := {
  req_method : http_method;
  req_url : string;
  req_headers : list (string * value);
  req_json : option value;
  req_timeout : Z
}.

(** [st.session_state.name]. *)
Definition session_attr (st : session) (name : string) : result value :=
  match dict_get name st with
  | Some v => Ok v
  | None => Raise (AttributeError name)
  end.

(** [d[k]] on a value. *)
Definition subscript (d : value) (k : string) : result value :=
  match d with
  | VDict kvs =>
      match dict_get k kvs with
      | Some v => Ok v
      | None => Raise (OtherError "KeyError" k)
      end
  | _ => Raise (OtherError "TypeError" "object is not subscriptable")
  end.

(** The truth value of JSON data. *)
Definition truthy (v : value) : bool :=
  match v with
  | VNone => false
  | VBool b => b
  | VInt n => negb (Z.eqb n 0)
  | VFloat bits => negb (Z.eqb bits 0 || Z.eqb bits 9223372036854775808)
  | VStr s => negb (String.eqb s "")
  | VBytes data | VByteArray data =>
      match data with [] => false | _ => true end
  | VList xs => match xs with [] => false | _ => true end
  | VDict kvs => match kvs with [] => false | _ => true end
  | VObj _ => true
  end.

Section Http.

(** The network, as the [requests] library shows it. *)
Variable http : request -> sent.

(** The message the handler of [make_request] computes for a
    RequestException [e]: [str(e)] if [e.response] is None; else the
    [error] entry of the dict that [e.response.json()] returns ([str(e)] if
    it has none); and when [json()] raises anything, or returns something
    that has no [get], the text of the response, or [str(e)] if that is
    empty. *)
Definition error_message (msg : string) (r : option response) : value :=
  match r with
  | None => VStr msg
  | Some r =>
      match resp_json r with
      | JsonData (VDict error_data) =>
          match dict_get "error" error_data with
          | Some err => err
          | None => VStr msg
          end
      | _ =>
          if String.eqb (resp_text r) "" then VStr msg else VStr (resp_text r)
      end
  end.

(** [except requests.exceptions.RequestException as e]: the handler of the
    outer [try]; an exception of another class passes it. *)
Definition except_RequestException (e : raised response) : result value :=
  match e with
  | JSONDecodeError msg r | RequestException msg r =>
      Ok (VDict [("success", VBool false); ("error", error_message msg r)])
  | NotRequestException e => Raise e
  end.

(** [make_request]; the values of [api_url] and [api_token] in the session
    are the strings [init_session_state] and the text inputs of the sidebar
    put there, and a value other than a string has no [rstrip]. *)
Definition make_request (st : session) (endpoint : string) (method : string)
    (data : option value) (expect_json : bool) : result value :=
  match session_attr st "api_url" with
  | Raise e => Raise e
  | Ok (VStr api_url) =>
      let url := String.append (rstrip "/" api_url) endpoint in
      match session_attr st "api_token" with
      | Raise e => Raise e
      | Ok api_token =>
          let headers := [("Content-Type", VStr "application/json");
                          ("x-api-key", api_token)] in
          let outcome :=
            if String.eqb method "GET" then
              http {| req_method := GET; req_url := url; req_headers := headers;
                      req_json := None; req_timeout := 30 |}
            else
              http {| req_method := POST; req_url := url; req_headers := headers;
                      req_json := data; req_timeout := 60 |} in
          match outcome with
          | Replied r =>
              match resp_status_error r with
              | Some msg => except_RequestException (RequestException msg (Some r))
              | None =>
                  if negb expect_json then
                    Ok (VDict [("success", VBool true); ("data", VStr (resp_text r))])
                  else
                    match resp_json r with
                    | JsonData j => Ok (VDict [("success", VBool true); ("data", j)])
                    | JsonRaises (JSONDecodeError _ _) =>
                        Ok (VDict [("success", VBool true);
                                   ("data", VStr (resp_text r))])
                    | JsonRaises e => except_RequestException e
                    end
              end
          | SendRaises e => except_RequestException e
          end
      end
  | Ok _ => Raise (AttributeError "rstrip")
  end.

(** [test_connection]: the session it leaves and the pair it returns. *)
Definition test_connection (st : session) : result (session * (bool * value)) :=
  match make_request st "/healthz" "GET" None false with
  | Raise e => Raise e
  | Ok result =>
      match subscript result "success" with
      | Raise e => Raise e
      | Ok success =>
          if truthy success then
            match make_request st "/api/info" "GET" None true with
            | Raise e => Raise e
            | Ok info_result =>
                match subscript info_result "success" with
                | Raise e => Raise e
                | Ok info_success =>
                    if truthy info_success then
                      match subscript info_result "data" with
                      | Raise e => Raise e
                      | Ok info =>
                          let st := dict_set "account_info" info st in
                          let st := dict_set "connected" (VBool true) st in
                          Ok (st, (true, VStr "Connected successfully!"))
                      end
                    else
                      let st := dict_set "connected" (VBool true) st in
                      Ok (st, (true, VStr "Connected (info endpoint not available)"))
                end
            end
          else
            Ok (st, (false,
                     match result with
                     | VDict kvs =>
                         match dict_get "error" kvs with
                         | Some err => err
                         | None => VStr "Connection failed"
                         end
                     | _ => VStr "Connection failed"
                     end))
      end
  end.

End Http.

(** The flattening loop of [render_results] for one row: an entry whose
    value is a dict is replaced by the entries of that dict under the keys
    [key.sub_key]; the other entries are kept. *)
Fixpoint flatten_sub (key : string) (items : dict) (flat_row : dict) : dict :=
  match items with
  | [] => flat_row
  | (sub_key, sub_value) :: rest =>
      flatten_sub key rest
        (dict_set (String.append key (String "." sub_key)) sub_value flat_row)
  end.

Fixpoint flatten_items (items : dict) (flat_row : dict) : dict :=
  match items with
  | [] => flat_row
  | (key, VDict sub) :: rest => flatten_items rest (flatten_sub key sub flat_row)
  | (key, v) :: rest => flatten_items rest (dict_set key v flat_row)
  end.

Definition flatten_row (row : dict) : dict := flatten_items row [].

(** The rows are what [response.json()] returned: a row that is not a dict
    has no [items]. *)
Fixpoint flatten_rows (data : list value) : result (list dict) :=
  match data with
  | [] => Ok []
  | VDict row :: rest =>
      match flatten_rows rest with
      | Ok flat_data => Ok (flatten_row row :: flat_data)
      | Raise e => Raise e
      end
  | _ :: _ => Raise (AttributeError "items")
  end.

(** A session of the dashboard, and a server that answers the health check,
    has no info endpoint and is otherwise unreachable. *)
Definition sample_session : session :=
  [("api_url", VStr "https://ads.example.com"); ("api_token", VStr "secret");
   ("connected", VBool false); ("account_info", VNone); ("last_result", VNone)].

Definition sample_http (rq : request) : sent :=
  if String.eqb (req_url rq) "https://ads.example.com/healthz" then
    Replied {| resp_status_error := None; resp_text := "ok";
               resp_json := JsonRaises (JSONDecodeError "Expecting value" None) |}
  else if String.eqb (req_url rq) "https://ads.example.com/api/info" then
    Replied {| resp_status_error := Some "404 Client Error: Not Found";
               resp_text := "{}";
               resp_json := JsonData (VDict [("error", VStr "unknown endpoint")]) |}
  else SendRaises (RequestException "connection refused" None).

(** The same server with an info endpoint whose body is nested too deeply
    for [json()] to decode it. *)
Definition RecursionError : exn :=
  OtherError "RecursionError" "maximum recursion depth exceeded".

Definition deep_http (rq : request) : sent :=
  if String.eqb (req_url rq) "https://ads.example.com/api/info" then
    Replied {| resp_status_error := None; resp_text := "[[[[[[[[";
               resp_json := JsonRaises (NotRequestException RecursionError) |}
  else sample_http rq.

(** What iterating a value yields, and the items of a mapping. *)
Definition elements (v : value) : list value :=
  match v with
  | VList xs => xs
  | VObj o => o_elems o
  | _ => []
  end.

Definition mapping_items (v : value) : list (value * value) :=
  match v with
  | VDict kvs => map (fun kx => (VStr (fst kx), snd kx)) kvs
  | VObj o => o_items o
  | _ => []
  end.

(** The dict a sequence of assignments [d[k] = w] builds from the empty
    dict. *)
Definition dict_of_writes (writes : list (string * value)) : dict :=
  fold_left (fun d kw => dict_set (fst kw) (snd kw) d) writes [].

(** The attributes the best-effort scan of [format_output_value] keeps, in
    the order of the names: those whose name does not start with an
    underscore, that can be read, and whose value is not callable. *)
Definition public_attrs (attrs : list (string * result value))
    (names : list string) : list (string * value) :=
  flat_map
    (fun name =>
       if startswith name "_" then []
       else match assoc name attrs with
            | Some (Ok x) => if callable x then [] else [(name, x)]
            | _ => []
            end)
    names.

(** A value none of the tests of [format_output_value] recognises: it gets
    to the last branch and is returned as it is. *)
Definition unrecognised (rt : runtime) (v : value) : bool :=
  negb (is_none v) && negb (isinstance_Enum v) && negb (isinstance_Mapping v)
  && negb (isinstance_Message v)
  && negb (protobuf_imported rt && isinstance_ProtobufMessage v)
  && match _is_repeated_container rt v with
     | Ok false => true
     | _ => false
     end.

(** A value that holds, at any depth the normaliser may convert, no byte
    string and no object that none of the tests recognises: the items of a
    mapping, the elements of a container, the fields a raw message lists,
    and the attributes the scan over [dir] may keep (those with a public
    name and a value that is not callable; methods and private names are
    only probed, never converted). *)
Fixpoint json_convertible (rt : runtime) (v : value) : bool :=
  match v with
  | VNone | VBool _ | VInt _ | VFloat _ | VStr _ => true
  | VBytes _ | VByteArray _ => false
  | VList xs => forallb (fun x => json_convertible rt x) xs
  | VDict kvs => forallb (fun kx => json_convertible rt (snd kx)) kvs
  | VObj o =>
      negb (unrecognised rt v)
      && forallb (fun nr => match snd nr with
                            | Ok x => startswith (fst nr) "_" || callable x
                                      || json_convertible rt x
                            | Raise _ => true
                            end) (o_attrs o)
      && forallb (fun kx => json_convertible rt (snd kx)) (o_items o)
      && forallb (fun x => json_convertible rt x) (o_elems o)
      && match o_pb o with
         | PbListFields fields =>
             forallb (fun nx => json_convertible rt (snd nx)) fields
         | _ => true
         end
  end.

(** The records the normaliser writes, as opposed to the row formatter. *)
Definition is_value_record (r : log_record) : Prop :=
  match r with
  | LogValueFailed _ _ _ => True
  | LogFieldFailed _ _ => False
  end.

(** * Properties *)

(** ** The examples of the specification (section 8) *)

Example normalize_null :
  format_output_value sample_runtime VNone = (Ok VNone, []).
Proof. reflexivity. Qed.

Example normalize_scalar :
  format_output_value sample_runtime (VStr "Spring Sale")
  = (Ok (VStr "Spring Sale"), []).
Proof. reflexivity. Qed.

Example normalize_enum :
  format_output_value sample_runtime (enum_member "CampaignStatus" "ENABLED" 2)
  = (Ok (VStr "ENABLED"), []).
Proof. reflexivity. Qed.

Example normalize_text_asset :
  format_output_value sample_runtime sample_text_asset
  = (Ok (VStr "Buy Now"), []).
Proof. reflexivity. Qed.

Example normalize_repeated :
  format_output_value sample_runtime (repeated_scalar [VInt 1; VInt 2; VInt 3])
  = (Ok (VList [VInt 1; VInt 2; VInt 3]), []).
Proof. reflexivity. Qed.

Example format_row_end_to_end :
  format_output_row sample_runtime sample_row
    ["campaign.id"; "campaign.name"; "campaign.status"; "campaign.missing"]
  = (Ok [("campaign.id", VInt 123); ("campaign.name", VStr "Spring Sale");
         ("campaign.status", VStr "ENABLED"); ("campaign.missing", VNone)],
     [LogFieldFailed "campaign.missing" (AttributeError "missing")]).
Proof. reflexivity. Qed.

(** ** Strings and dictionaries *)

Lemma assoc_In {A} (k : string) (l : list (string * A)) (a : A) :
  assoc k l = Some a -> In (k, a) l.
Proof.
  induction l as [|[k' a'] l IH]; simpl; [discriminate|].
  destruct (String.eqb_spec k k') as [->|Hne].
  - intros [= ->]. now left.
  - intros H. right. now apply IH.
Qed.

Lemma existsb_eqb_In (x : string) (l : list string) :
  existsb (String.eqb x) l = true <-> In x l.
Proof.
  rewrite existsb_exists. split.
  - intros [y [Hy Heq]]. apply String.eqb_eq in Heq. now subst.
  - intros H. exists x. split; [assumption | apply String.eqb_refl].
Qed.

Lemma dict_get_set_same (k : string) (w : value) (d : dict) :
  dict_get k (dict_set k w d) = Some w.
Proof.
  unfold dict_get. induction d as [|[k' w'] d IH]; simpl.
  - now rewrite String.eqb_refl.
  - destruct (String.eqb k k') eqn:E; simpl; rewrite E; [reflexivity | exact IH].
Qed.

Lemma dict_get_set_other (k k' : string) (w : value) (d : dict) :
  k <> k' -> dict_get k' (dict_set k w d) = dict_get k' d.
Proof.
  unfold dict_get. intros Hne. induction d as [|[k0 w0] d IH]; simpl.
  - destruct (String.eqb_spec k' k); [congruence | reflexivity].
  - destruct (String.eqb_spec k k0) as [->|Hk]; simpl.
    + destruct (String.eqb_spec k' k0); [congruence | reflexivity].
    + destruct (String.eqb k' k0); [reflexivity | exact IH].
Qed.

Lemma dict_keys_set (k : string) (w : value) (d : dict) :
  dict_keys (dict_set k w d)
  = if existsb (String.eqb k) (dict_keys d) then dict_keys d
    else dict_keys d ++ [k].
Proof.
  unfold dict_keys. induction d as [|[k' w'] d IH]; simpl; [reflexivity|].
  destruct (String.eqb k k') eqn:E; simpl; [reflexivity|].
  rewrite IH. now destruct (existsb (String.eqb k) (map fst d)).
Qed.

Lemma first_occurrences_from_ext (seen seen' l : list string) :
  (forall x, In x seen <-> In x seen') ->
  first_occurrences_from seen l = first_occurrences_from seen' l.
Proof.
  revert seen seen'. induction l as [|x l IH]; intros seen seen' Hs; simpl.
  - reflexivity.
  - assert (E : existsb (String.eqb x) seen = existsb (String.eqb x) seen').
    { apply eq_true_iff_eq. rewrite !existsb_eqb_In. apply Hs. }
    rewrite E. destruct (existsb (String.eqb x) seen').
    + now apply IH.
    + f_equal. apply IH. intros y. simpl. now rewrite Hs.
Qed.

Lemma first_occurrences_from_In (seen l : list string) (x : string) :
  In x (first_occurrences_from seen l) <-> In x l /\ ~ In x seen.
Proof.
  revert seen. induction l as [|y l IH]; intros seen; simpl.
  - tauto.
  - destruct (existsb (String.eqb y) seen) eqn:E.
    + apply existsb_eqb_In in E. rewrite IH. split.
      * tauto.
      * intros [[->|H] Hn]; tauto.
    + assert (Hy : ~ In y seen).
      { intros H. apply existsb_eqb_In in H. congruence. }
      simpl. rewrite IH. simpl. split.
      * intros [->|[H Hn]]; [tauto|]. split; [tauto|]. tauto.
      * intros [[->|H] Hn]; [tauto|].
        destruct (string_dec y x) as [->|Hne]; [tauto|]. right. tauto.
Qed.

Lemma first_occurrences_from_NoDup (seen l : list string) :
  NoDup (first_occurrences_from seen l).
Proof.
  revert seen. induction l as [|y l IH]; intros seen; simpl.
  - constructor.
  - destruct (existsb (String.eqb y) seen); [apply IH|].
    constructor; [|apply IH].
    rewrite first_occurrences_from_In. simpl. tauto.
Qed.

(** ** The resolver, segment by segment *)

Section Resolver.

Variable rt : runtime.

Lemma fallback_strategies (obj : value) (name : string) :
  _get_attr_with_reserved_fallback rt obj name
  = if is_none obj then Raise (AttributeError name)
    else match first_success rt obj (naming_strategies name) with
         | Some v => Ok v
         | None => Raise (AttributeError name)
         end.
Proof.
  unfold _get_attr_with_reserved_fallback, naming_strategies.
  destruct (is_none obj); [reflexivity|]. simpl.
  destruct (py_getattr rt obj name); [reflexivity|].
  destruct (py_getattr rt obj (String.append name "_")); [reflexivity|].
  destruct (ends_with_underscore name); simpl; [|reflexivity].
  now destruct (py_getattr rt obj (drop_last name)).
Qed.

Lemma fallback_raises_AttributeError (obj : value) (name : string) (e : exn) :
  _get_attr_with_reserved_fallback rt obj name = Raise e ->
  e = AttributeError name.
Proof.
  rewrite fallback_strategies.
  destruct (is_none obj); [congruence|].
  destruct (first_success rt obj (naming_strategies name)); congruence.
Qed.

Lemma resolve_parts_app (root : value) (pre rest : list string) :
  resolve_parts rt root (pre ++ rest)
  = match resolve_parts rt root pre with
    | Ok cur => resolve_parts rt cur rest
    | Raise e => Raise e
    end.
Proof.
  revert root. induction pre as [|s pre IH]; intros root; simpl; [reflexivity|].
  destruct (_get_attr_with_reserved_fallback rt root s); [apply IH | reflexivity].
Qed.

(** A walk fails exactly at a segment whose lookup fails on the object the
    segments before it lead to. *)
Lemma resolve_parts_raises (root : value) (parts : list string) (e : exn) :
  resolve_parts rt root parts = Raise e <->
  exists pre s rest cur,
    parts = pre ++ s :: rest /\
    resolve_parts rt root pre = Ok cur /\
    _get_attr_with_reserved_fallback rt cur s = Raise e.
Proof.
  revert root. induction parts as [|p parts IH]; intros root; simpl.
  - split; [discriminate|].
    intros (pre & s & rest & cur & H & _). now destruct pre.
  - destruct (_get_attr_with_reserved_fallback rt root p) as [v|e0] eqn:E.
    + rewrite IH. split.
      * intros (pre & s & rest & cur & -> & Hpre & Hs).
        exists (p :: pre), s, rest, cur. simpl. rewrite E. auto.
      * intros (pre & s & rest & cur & Hparts & Hpre & Hs).
        destruct pre as [|p' pre]; simpl in *.
        -- injection Hparts as -> ->. injection Hpre as ->. congruence.
        -- injection Hparts as -> ->. rewrite E in Hpre.
           exists pre, s, rest, cur. auto.
    + split.
      * intros [= ->]. exists [], p, parts, root. auto.
      * intros (pre & s & rest & cur & Hparts & Hpre & Hs).
        destruct pre as [|p' pre]; simpl in *.
        -- injection Hparts as -> ->. injection Hpre as ->. congruence.
        -- injection Hparts as -> ->. rewrite E in Hpre. discriminate.
Qed.

End Resolver.

(** ** The row formatter as a sequence of writes *)

Section Row.

Variable rt : runtime.
Variable row : value.

Lemma row_step (attr : string) (out : dict) :
  try_except
    (raw_val <- lift (get_nested_attr_safe rt row attr) ;;
     w <- format_output_value rt raw_val ;;
     ret (dict_set attr w out))
    (fun e => tell (LogFieldFailed attr e) ;;; ret (dict_set attr VNone out))
  = (Ok (dict_set attr (cell rt row attr) out), field_log rt row attr).
Proof.
  unfold cell, field_log, field_value, try_except, bind, lift, tell, ret.
  destruct (get_nested_attr_safe rt row attr) as [raw|e]; simpl.
  - destruct (format_output_value rt raw) as [[w|e] l]; simpl.
    + now rewrite !app_nil_r.
    + reflexivity.
  - reflexivity.
Qed.

Lemma row_loop_writes (attributes : list string) (out : dict) :
  format_output_row_loop rt row attributes out
  = (Ok (fold_left (fun d p => dict_set p (cell rt row p) d) attributes out),
     flat_map (field_log rt row) attributes).
Proof.
  revert out. induction attributes as [|attr rest IH]; intros out.
  - reflexivity.
  - cbn [format_output_row_loop fold_left flat_map].
    rewrite row_step. unfold bind. now rewrite IH.
Qed.

Lemma writes_keys (attributes : list string) (out : dict) :
  dict_keys (fold_left (fun d p => dict_set p (cell rt row p) d) attributes out)
  = dict_keys out ++ first_occurrences_from (dict_keys out) attributes.
Proof.
  revert out. induction attributes as [|p rest IH]; intros out; simpl.
  - now rewrite app_nil_r.
  - rewrite IH, dict_keys_set.
    destruct (existsb (String.eqb p) (dict_keys out)) eqn:E; [reflexivity|].
    rewrite <- app_assoc. simpl. do 2 f_equal.
    apply first_occurrences_from_ext. intros x.
    rewrite in_app_iff. simpl. tauto.
Qed.

Lemma writes_get (attributes : list string) (out : dict) (p : string) :
  dict_get p (fold_left (fun d p => dict_set p (cell rt row p) d) attributes out)
  = if existsb (String.eqb p) attributes then Some (cell rt row p)
    else dict_get p out.
Proof.
  revert out. induction attributes as [|q rest IH]; intros out; simpl.
  - reflexivity.
  - rewrite IH. destruct (existsb (String.eqb p) rest); [now rewrite orb_true_r|].
    rewrite orb_false_r. destruct (String.eqb_spec p q) as [->|Hne].
    + apply dict_get_set_same.
    + apply dict_get_set_other. congruence.
Qed.

End Row.

(** ** Claims about the nested field resolver *)

Lemma fallback_raises_iff (rt : runtime) (cur : value) (s : string) (e : exn) :
  _get_attr_with_reserved_fallback rt cur s = Raise e <->
  e = AttributeError s /\
  (is_none cur = true \/ first_success rt cur (naming_strategies s) = None).
Proof.
  rewrite fallback_strategies. destruct (is_none cur).
  - split; [intros [= <-]; auto | intros [-> _]; reflexivity].
  - destruct (first_success rt cur (naming_strategies s)).
    + split; [discriminate | intros [_ [H|H]]; discriminate].
    + split; [intros [= <-]; auto | intros [-> _]; reflexivity].
Qed.



(** C6, as stated, fails: on the sample row the path
    "campaign.bidding_strategy.__class__" is refused with the segment
    "__class__" although, at every segment, one of the three naming
    strategies resolves it against the object reached (None has a
    [__class__]). *)
Lemma resolver_failure_counterexample :
  get_nested_attr_safe sample_runtime sample_row
    "campaign.bidding_strategy.__class__"
  = Raise (AttributeError "__class__") /\
  ~ (exists pre s rest cur,
       split_on "." "campaign.bidding_strategy.__class__" = pre ++ s :: rest /\
       resolve_parts sample_runtime sample_row pre = Ok cur /\
       first_success sample_runtime cur (naming_strategies s) = None).
Proof.
  split; [reflexivity|].
  intros (pre & s & rest & cur & Hsplit & Hpre & Hnone).
  vm_compute in Hsplit.
  destruct pre as [|p1 [|p2 [|p3 pre]]]; simpl in Hsplit;
    injection Hsplit; intros; subst.
  1-3: vm_compute in Hpre; injection Hpre as <-; vm_compute in Hnone;
    discriminate.
  eapply app_cons_not_nil; eassumption.
Qed.

(** C6, amended.  Resolving a path fails exactly when, at some segment, the
    object reached is None or none of the three naming strategies resolves
    the segment against it; the exception is then the AttributeError that
    carries that segment (the specification's FieldResolutionError).  In
    particular "missing.field" fails with the segment "missing" on a record
    where no strategy resolves "missing". *)
Theorem resolver_fails_iff (rt : runtime) (root : value) (path : string) :
  (forall e,
     get_nested_attr_safe rt root path = Raise e <->
     exists pre s rest cur,
       e = AttributeError s /\
       split_on "." path = pre ++ s :: rest /\
       resolve_parts rt root pre = Ok cur /\
       (is_none cur = true \/
        first_success rt cur (naming_strategies s) = None)) /\
  (first_success rt root (naming_strategies "missing") = None ->
   get_nested_attr_safe rt root "missing.field"
   = Raise (AttributeError "missing")).
Proof.
  split.
  - intros e. unfold get_nested_attr_safe. rewrite resolve_parts_raises. split.
    + intros (pre & s & rest & cur & Hsplit & Hpre & Hs).
      apply fallback_raises_iff in Hs. destruct Hs as [-> Hs].
      now exists pre, s, rest, cur.
    + intros (pre & s & rest & cur & -> & Hsplit & Hpre).
      exists pre, s, rest, cur. split; [assumption|].
      destruct Hpre as [Hpre Hs]. split; [assumption|].
      apply fallback_raises_iff. auto.
  - intros Hmissing. unfold get_nested_attr_safe.
    change (split_on "." "missing.field") with ["missing"; "field"].
    cbn [resolve_parts]. rewrite fallback_strategies, Hmissing.
    now destruct (is_none root).
Qed.

Lemma resolver_fails_iff_witness :
  first_success sample_runtime sample_row (naming_strategies "missing") = None /\
  get_nested_attr_safe sample_runtime sample_row "missing.field"
  = Raise (AttributeError "missing").
Proof.
  split; [reflexivity|].
  apply (proj2 (resolver_fails_iff sample_runtime sample_row "missing.field")).
  reflexivity.
Defined.

(** C10. The fallback chain of a segment is driven by any exception of
    attribute access, not only by AttributeError: whatever the direct lookup
    raises, the underscore-suffixed name is tried next and, when it resolves,
    its value is the result; whatever that second lookup raises, the
    stripped name is tried for a segment that ends with an underscore.  No
    exception of a single lookup leaves the function: when it raises, it
    raises the AttributeError that carries the segment. *)
Theorem fallback_on_any_exception (rt : runtime) (obj : value) (name : string) :
  (forall e v,
     is_none obj = false ->
     py_getattr rt obj name = Raise e ->
     py_getattr rt obj (String.append name "_") = Ok v ->
     _get_attr_with_reserved_fallback rt obj name = Ok v) /\
  (forall e e' v,
     is_none obj = false ->
     py_getattr rt obj name = Raise e ->
     py_getattr rt obj (String.append name "_") = Raise e' ->
     ends_with_underscore name = true ->
     py_getattr rt obj (drop_last name) = Ok v ->
     _get_attr_with_reserved_fallback rt obj name = Ok v) /\
  (forall e,
     _get_attr_with_reserved_fallback rt obj name = Raise e ->
     e = AttributeError name).
Proof.
  unfold _get_attr_with_reserved_fallback. repeat split.
  - intros e v -> -> ->. reflexivity.
  - intros e e' v -> -> -> -> ->. reflexivity.
  - intros e. destruct (is_none obj); [congruence|].
    destruct (py_getattr rt obj name); [discriminate|].
    destruct (py_getattr rt obj (String.append name "_")); [discriminate|].
    destruct (ends_with_underscore name); [|congruence].
    destruct (py_getattr rt obj (drop_last name)); congruence.
Qed.

Lemma fallback_on_any_exception_witness :
  py_getattr sample_runtime sample_campaign "budget"
  = Raise (OtherError "RuntimeError" "getter failed") /\
  _get_attr_with_reserved_fallback sample_runtime sample_campaign "budget"
  = Ok (VInt 500).
Proof.
  split; [reflexivity|].
  apply (proj1 (fallback_on_any_exception sample_runtime sample_campaign "budget")
           (OtherError "RuntimeError" "getter failed"));
    reflexivity.
Defined.

(** ** Claims about the row formatter *)

(** C1. [format_output_row] returns, for every record and every list of
    paths, and never raises.  The keys of the mapping it returns are the
    paths as given, each once, in the order of their first occurrence in the
    list (so the key set is the set of the paths), and every path is bound
    to the value of its last write. *)
Theorem format_output_row_keys (rt : runtime) (row : value)
    (attributes : list string) :
  exists out l,
    format_output_row rt row attributes = (Ok out, l) /\
    out = fold_left (fun d p => dict_set p (cell rt row p) d) attributes [] /\
    dict_keys out = first_occurrences attributes /\
    NoDup (dict_keys out) /\
    (forall p, In p (dict_keys out) <-> In p attributes) /\
    (forall pre p rest,
       attributes = pre ++ p :: rest -> ~ In p rest ->
       dict_get p out = Some (cell rt row p)).
Proof.
  unfold format_output_row. rewrite row_loop_writes.
  eexists. eexists. split; [reflexivity|]. split; [reflexivity|].
  assert (K : dict_keys
                (fold_left (fun d p => dict_set p (cell rt row p) d) attributes [])
              = first_occurrences attributes) by apply writes_keys.
  split; [exact K|]. rewrite K. unfold first_occurrences.
  split; [apply first_occurrences_from_NoDup|]. split.
  - intros p. rewrite first_occurrences_from_In. simpl. tauto.
  - intros pre p rest -> _. rewrite writes_get.
    assert (E : existsb (String.eqb p) (pre ++ p :: rest) = true).
    { apply existsb_eqb_In. apply in_elt. }
    now rewrite E.
Qed.

Lemma format_output_row_keys_witness :
  exists out l,
    format_output_row sample_runtime sample_row
      ["campaign.id"; "campaign.missing"; "campaign.id"] = (Ok out, l) /\
    dict_keys out = ["campaign.id"; "campaign.missing"] /\
    dict_get "campaign.id" out = Some (VInt 123).
Proof.
  destruct (format_output_row_keys sample_runtime sample_row
              ["campaign.id"; "campaign.missing"; "campaign.id"])
    as (out & l & Hrun & _ & Hkeys & _ & _ & Hlast).
  exists out, l. split; [exact Hrun|]. split; [exact Hkeys|].
  apply (Hlast ["campaign.id"; "campaign.missing"] "campaign.id" []).
  - reflexivity.
  - simpl. tauto.
Defined.



(** C9. Resolving any segment against None fails at once, whatever
    attributes None has; so a path one of whose segments other than the last
    resolves to None fails at the next segment, and [format_output_row]
    binds such a path to None. *)
Theorem none_fails_immediately (rt : runtime) :
  (forall name,
     _get_attr_with_reserved_fallback rt VNone name
     = Raise (AttributeError name)) /\
  (forall root path pre s rest,
     split_on "." path = pre ++ s :: rest ->
     resolve_parts rt root pre = Ok VNone ->
     get_nested_attr_safe rt root path = Raise (AttributeError s)) /\
  (forall row attributes path pre s rest,
     In path attributes ->
     split_on "." path = pre ++ s :: rest ->
     resolve_parts rt row pre = Ok VNone ->
     exists out l,
       format_output_row rt row attributes = (Ok out, l) /\
       dict_get path out = Some VNone /\
       In (LogFieldFailed path (AttributeError s)) l).
Proof.
  assert (Hwalk : forall root path pre s rest,
            split_on "." path = pre ++ s :: rest ->
            resolve_parts rt root pre = Ok VNone ->
            get_nested_attr_safe rt root path = Raise (AttributeError s)).
  { intros root path pre s rest Hsplit Hpre. unfold get_nested_attr_safe.
    rewrite Hsplit, resolve_parts_app, Hpre. reflexivity. }
  split; [reflexivity|]. split; [exact Hwalk|].
  intros row attributes path pre s rest Hin Hsplit Hpre.
  specialize (Hwalk row path pre s rest Hsplit Hpre).
  assert (Hfield : field_value rt row path = (Raise (AttributeError s), [])).
  { unfold field_value. now rewrite Hwalk. }
  unfold format_output_row. rewrite row_loop_writes.
  eexists. eexists. split; [reflexivity|]. split.
  - rewrite writes_get. apply existsb_eqb_In in Hin. rewrite Hin.
    unfold cell. now rewrite Hfield.
  - apply in_flat_map. exists path. split; [assumption|].
    unfold field_log. rewrite Hfield. now left.
Qed.

Lemma none_fails_immediately_witness :
  py_getattr sample_runtime VNone "__class__" = Ok NoneType /\
  get_nested_attr_safe sample_runtime sample_row
    "campaign.bidding_strategy.__class__"
  = Raise (AttributeError "__class__").
Proof.
  split; [reflexivity|].
  apply (proj1 (proj2 (none_fails_immediately sample_runtime))
           sample_row "campaign.bidding_strategy.__class__"
           ["campaign"; "bidding_strategy"] "__class__" []);
    reflexivity.
Defined.

(** ** The normaliser, call by call *)

Lemma format_output_value_eq (rt : runtime) (v : value) :
  format_output_value rt v
  = format_output_value_body rt v (subresults_of rt v).
Proof. destruct v; reflexivity. Qed.

Lemma try_except_raises {A} (body : M A) (handler : exn -> M A) (e : exn) (l : log) :
  try_except body handler = (Raise e, l) ->
  exists e0 l0 l1,
    body = (Raise e0, l0) /\ handler e0 = (Raise e, l1) /\ l = l0 ++ l1.
Proof.
  unfold try_except. destruct body as [[a|e0] l0]; [discriminate|].
  destruct (handler e0) as [r l1] eqn:E. intros [= -> <-].
  now exists e0, l0, l1.
Qed.

Lemma try_except_returns {A} (body : M A) (handler : exn -> M A) (a : A) (l : log) :
  try_except body handler = (Ok a, l) ->
  body = (Ok a, l) \/
  exists e0 l0 l1,
    body = (Raise e0, l0) /\ handler e0 = (Ok a, l1) /\ l = l0 ++ l1.
Proof.
  unfold try_except. destruct body as [[a0|e0] l0].
  - intros [= -> ->]. now left.
  - destruct (handler e0) as [r l1] eqn:E. intros [= -> <-].
    right. now exists e0, l0, l1.
Qed.

(** What leaves [format_output_value] as an exception is what [str] raised
    in its handler. *)
Lemma format_output_value_raises (rt : runtime) (v : value) (e : exn) (l : log) :
  format_output_value rt v = (Raise e, l) -> py_str rt v = Raise e.
Proof.
  rewrite format_output_value_eq. unfold format_output_value_body, format_output_value_try,
    format_output_value_except.
  intros H. apply try_except_raises in H.
  destruct H as (e0 & l0 & l1 & _ & H & _).
  unfold bind, tell, lift, ret in H. destruct (py_str rt v); simpl in H.
  - discriminate.
  - congruence.
Qed.

(** So the normaliser returns for every value whose [str] returns. *)
Lemma format_output_value_returns (rt : runtime) (v : value) (s : string) :
  py_str rt v = Ok s -> exists w l, format_output_value rt v = (Ok w, l).
Proof.
  intros Hs. destruct (format_output_value rt v) as [[w|e] l] eqn:E.
  - now exists w, l.
  - apply format_output_value_raises in E. congruence.
Qed.

(** When the [try] block raises, the handler logs the failure with the type
    of the value and returns [str] of the value, if [str] returns. *)
Lemma format_output_value_falls_back (rt : runtime) (v : value)
    (sub : subresults) (e : exn) (l : log) (s : string) :
  format_output_value_try rt v sub = (Raise e, l) ->
  py_str rt v = Ok s ->
  format_output_value_body rt v sub
  = (Ok (VStr s), l ++ [LogValueFailed (type_module v) (type_name v) e]).
Proof.
  intros Htry Hstr. unfold format_output_value_body, format_output_value_except.
  rewrite Htry. unfold try_except, bind, tell, lift, ret. now rewrite Hstr.
Qed.

(** ** Claims about the value normaliser *)

(** C2 fails on the code: a byte string is none of the categories the
    normaliser converts, reaches the last branch and is returned as it is,
    and a byte string is not a Normalized Value. *)
Theorem bytes_returned_unchanged (rt : runtime) (data : list Byte.byte) :
  format_output_value rt (VBytes data) = (Ok (VBytes data), []) /\
  normalized (VBytes data) = false.
Proof.
  split; [|reflexivity].
  rewrite format_output_value_eq.
  unfold format_output_value_body, format_output_value_try,
    format_output_value_except, _is_repeated_container. simpl.
  now rewrite andb_false_r.
Qed.

(** C3 fails on the code: when a step of the conversion raises and [str] of
    the value raises too, the exception of [str] leaves
    [format_output_value], after the first failure has been logged. *)
Theorem str_failure_escapes (rt : runtime) :
  format_output_value rt broken_mapping
  = (Raise (OtherError "RuntimeError" "__str__: connection closed"),
     [LogValueFailed "app.models" "LazyRecord"
        (OtherError "RuntimeError" "items: connection closed")]).
Proof. reflexivity. Qed.

(** C7. Repeated-container detection answers no for None, for text and byte
    strings, for mappings and for proto messages before it looks at the
    type signature or probes anything, so a proto message is not converted
    as a repeated container even when it supports iteration: what
    [format_output_value] returns for it does not depend on what iterating
    it yields.  For any other value the detection tries the native type
    signature first, then [__iter__], then [__len__] together with
    [__getitem__]: a later test is consulted only when the earlier ones said
    no. *)
Theorem repeated_container_detection (rt : runtime) (v : value) :
  (is_none v || isinstance_str v || isinstance_Mapping v || isinstance_Message v
   = true ->
   _is_repeated_container rt v = Ok false) /\
  (forall o elems elems_end,
     cls_is_Message (o_class o) = true ->
     format_output_value rt (VObj (with_elems o elems elems_end))
     = format_output_value rt (VObj o)) /\
  (is_none v || isinstance_str v || isinstance_Mapping v || isinstance_Message v
   = false ->
   (startswith (type_module v) "google._upb._message"
    && startswith (type_name v) "Repeated" = true ->
    _is_repeated_container rt v = Ok true) /\
   (startswith (type_module v) "google._upb._message"
    && startswith (type_name v) "Repeated" = false ->
    py_hasattr rt v "__iter__" = Ok true ->
    _is_repeated_container rt v = Ok true) /\
   (startswith (type_module v) "google._upb._message"
    && startswith (type_name v) "Repeated" = false ->
    py_hasattr rt v "__iter__" = Ok false ->
    _is_repeated_container rt v
    = match py_hasattr rt v "__len__" with
      | Ok true => py_hasattr rt v "__getitem__"
      | r => r
      end)).
Proof.
  split; [|split].
  - unfold _is_repeated_container.
    destruct (is_none v); [reflexivity|].
    destruct (isinstance_str v); [reflexivity|].
    destruct (isinstance_Mapping v); [reflexivity|].
    destruct (isinstance_Message v); [reflexivity|discriminate].
  - intros o elems elems_end Hmsg.
    rewrite !format_output_value_eq.
    unfold format_output_value_body, format_output_value_try,
    format_output_value_except, _is_repeated_container.
    cbn [is_none isinstance_Enum isinstance_Mapping isinstance_str
         isinstance_Message isinstance_ProtobufMessage type_name type_module
         items_end py_getattr py_hasattr py_str subresults_of with_elems
         o_class o_attrs o_str o_items o_items_end o_pb o_dir
         sub_items sub_pb sub_attrs].
    rewrite Hmsg.
    destruct (cls_is_str (o_class o)), (cls_is_Mapping (o_class o));
      reflexivity.
  - intros Hnot. apply orb_false_elim in Hnot. destruct Hnot as [Hnot Hmsg].
    apply orb_false_elim in Hnot. destruct Hnot as [Hnot Hmap].
    apply orb_false_elim in Hnot. destruct Hnot as [Hnone Hstr].
    unfold _is_repeated_container. rewrite Hnone, Hstr, Hmap, Hmsg.
    split; [|split].
    + intros ->. reflexivity.
    + intros -> ->. reflexivity.
    + intros -> ->. destruct (py_hasattr rt v "__len__") as [[|]|]; try reflexivity.
      now destruct (py_hasattr rt v "__getitem__").
Qed.

Lemma repeated_container_detection_witness :
  py_hasattr sample_runtime (VObj iterable_message) "__iter__" = Ok true /\
  _is_repeated_container sample_runtime (VObj iterable_message) = Ok false /\
  format_output_value sample_runtime (VObj iterable_message)
  = (Ok (VDict [("units", VInt 5)]), []) /\
  _is_repeated_container sample_runtime (VList [VInt 1]) = Ok true.
Proof.
  split; [reflexivity|]. split; [|split].
  - apply (proj1 (repeated_container_detection sample_runtime
                    (VObj iterable_message))).
    reflexivity.
  - reflexivity.
  - apply (proj1 (proj2 (proj2 (proj2 (repeated_container_detection
                    sample_runtime (VList [VInt 1]))) eq_refl)));
      reflexivity.
Defined.

(** ** Values the normaliser leaves alone *)

Lemma bind_returns {A B} (m : M A) (k : A -> M B) (b : B) (l : log) :
  bind m k = (Ok b, l) ->
  exists a l1 l2, m = (Ok a, l1) /\ k a = (Ok b, l2) /\ l = l1 ++ l2.
Proof.
  unfold bind. destruct m as [[a|e] l1]; [|discriminate].
  destruct (k a) as [r l2] eqn:E. intros [= -> <-]. now exists a, l1, l2.
Qed.

Lemma bind_ok {A B} (m : M A) (k : A -> M B) (a : A) (l : log) :
  m = (Ok a, l) -> fst (bind m k) = fst (k a).
Proof. intros ->. unfold bind. now destruct (k a). Qed.

Lemma fst_ok {A} (m : M A) (a : A) :
  fst m = Ok a -> exists l, m = (Ok a, l).
Proof. destruct m as [r l]. simpl. intros ->. now exists l. Qed.

Section Fixed.

Variable rt : runtime.

Lemma fixed_None : fixed rt VNone.
Proof. reflexivity. Qed.

Lemma fixed_Str (s : string) : fixed rt (VStr s).
Proof.
  unfold fixed. rewrite format_output_value_eq.
  unfold format_output_value_body, format_output_value_try,
    format_output_value_except, _is_repeated_container. simpl.
  now rewrite andb_false_r.
Qed.

Lemma stable_dict_nil : stable_dict rt [].
Proof. split; constructor. Qed.

Lemma dict_set_In (k : string) (w : value) (d : dict) (kx : string * value) :
  In kx (dict_set k w d) -> kx = (k, w) \/ In kx d.
Proof.
  induction d as [|[k' w'] d IH]; simpl.
  - intros [<-|[]]. now left.
  - destruct (String.eqb_spec k k') as [->|Hne]; simpl.
    + intros [<-|H]; auto.
    + intros [<-|H]; auto. destruct (IH H); auto.
Qed.

Lemma dict_keys_set_NoDup (k : string) (w : value) (d : dict) :
  NoDup (dict_keys d) -> NoDup (dict_keys (dict_set k w d)).
Proof.
  intros H. rewrite dict_keys_set.
  destruct (existsb (String.eqb k) (dict_keys d)) eqn:E; [assumption|].
  apply NoDup_app; [assumption | repeat constructor; simpl; tauto |].
  intros x Hx [<-|[]]. apply existsb_eqb_In in Hx. congruence.
Qed.

Lemma stable_dict_set (k : string) (w : value) (d : dict) :
  fixed rt w -> stable_dict rt d -> stable_dict rt (dict_set k w d).
Proof.
  intros Hw [Hk Hv]. split; [now apply dict_keys_set_NoDup|].
  rewrite Forall_forall in *. intros kx Hin.
  apply dict_set_In in Hin. destruct Hin as [->|Hin]; [assumption | now apply Hv].
Qed.

Lemma bind_ret {A B} (a : A) (k : A -> M B) : bind (ret a) k = k a.
Proof. unfold bind, ret. now destruct (k a). Qed.

Lemma bind_lift_Ok {A B} (a : A) (k : A -> M B) : bind (lift (Ok a)) k = k a.
Proof. apply bind_ret. Qed.

Lemma bind_lift_Raise {A B} (e : exn) (k : A -> M B) :
  bind (lift (Raise e)) k = (Raise e, []).
Proof. reflexivity. Qed.

Lemma convert_items_stable (items : list (value * M value)) (out out' : dict)
    (l : log) :
  Forall (fun kc => stable_call rt (snd kc)) items ->
  stable_dict rt out ->
  convert_items rt items out = (Ok out', l) ->
  stable_dict rt out'.
Proof.
  intros Hitems. revert out l.
  induction Hitems as [|[k call] items Hcall _ IH]; intros out l Hout;
    cbn [convert_items].
  - now intros [= <- _].
  - intros H. apply bind_returns in H. destruct H as (key & l1 & l2 & _ & H & _).
    apply bind_returns in H. destruct H as (w & l3 & l4 & Hw & H & _).
    apply IH in H; [assumption|].
    apply stable_dict_set; [|assumption]. now apply (Hcall w l3).
Qed.

Lemma convert_elems_stable (elems : list (M value)) (ws : list value) (l : log) :
  Forall (stable_call rt) elems ->
  convert_elems elems = (Ok ws, l) ->
  Forall (fixed rt) ws.
Proof.
  intros Helems. revert ws l.
  induction Helems as [|call elems Hcall _ IH]; intros ws l;
    cbn [convert_elems].
  - intros [= <- _]. constructor.
  - intros H. apply bind_returns in H. destruct H as (w & l1 & l2 & Hw & H & _).
    apply bind_returns in H. destruct H as (ws' & l3 & l4 & Hws & H & _).
    injection H as <- _. constructor; [now apply (Hcall w l1) | now apply (IH ws' l3)].
Qed.

Lemma convert_fields_stable (fields : list (string * M value)) (out out' : dict)
    (l : log) :
  Forall (fun nc => stable_call rt (snd nc)) fields ->
  stable_dict rt out ->
  convert_fields fields out = (Ok out', l) ->
  stable_dict rt out'.
Proof.
  intros Hfields. revert out l.
  induction Hfields as [|[name call] fields Hcall _ IH]; intros out l Hout;
    cbn [convert_fields].
  - now intros [= <- _].
  - intros H. apply bind_returns in H. destruct H as (w & l1 & l2 & Hw & H & _).
    apply IH in H; [assumption|].
    apply stable_dict_set; [|assumption]. now apply (Hcall w l1).
Qed.

Lemma scan_attrs_stable (attrs : list (string * result (value * M value)))
    (names : list string) (out out' : dict) (l : log) :
  Forall (stable_attr rt) attrs ->
  stable_dict rt out ->
  scan_attrs attrs names out = (Ok out', l) ->
  stable_dict rt out'.
Proof.
  intros Hattrs. revert out l.
  induction names as [|attr names IH]; intros out l Hout;
    cbn [scan_attrs].
  - now intros [= <- _].
  - destruct (startswith attr "_"); [now apply IH|].
    destruct (assoc attr attrs) as [[[x call]|e]|] eqn:E; try now apply IH.
    destruct (callable x); [now apply IH|].
    intros H. apply bind_returns in H. destruct H as (w & l1 & l2 & Hw & H & _).
    apply IH in H; [assumption|].
    apply stable_dict_set; [|assumption].
    apply assoc_In in E. rewrite Forall_forall in Hattrs.
    apply Hattrs in E. now apply (E w l1).
Qed.

Lemma dict_set_fresh (k : string) (w : value) (d : dict) :
  ~ In k (dict_keys d) -> dict_set k w d = d ++ [(k, w)].
Proof.
  induction d as [|[k' w'] d IH]; simpl; [reflexivity|].
  intros Hn. destruct (String.eqb_spec k k') as [->|Hne]; [tauto|].
  f_equal. apply IH. tauto.
Qed.

(** Converting the items of a dict with distinct keys and fixed values
    builds the same dict again. *)
Lemma convert_items_rebuilds (d acc : dict) :
  NoDup (dict_keys acc ++ dict_keys d) ->
  Forall (fun kx => fixed rt (snd kx)) d ->
  exists l,
    convert_items rt
      (map (fun kx => (VStr (fst kx), format_output_value rt (snd kx))) d) acc
    = (Ok (acc ++ d), l).
Proof.
  revert acc. induction d as [|[k x] d IH]; intros acc Hnd Hfix;
    cbn [map convert_items fst snd py_str].
  - exists []. now rewrite app_nil_r.
  - inversion Hfix as [|? ? Hx Hd]; subst. simpl in Hx.
    apply fst_ok in Hx. destruct Hx as [lx Hx].
    rewrite bind_lift_Ok. unfold bind at 1. rewrite Hx.
    rewrite dict_set_fresh.
    + destruct (IH (acc ++ [(k, x)])) as [l Hl]; [|assumption|].
      * unfold dict_keys in *. rewrite map_app. simpl.
        rewrite <- app_assoc. exact Hnd.
      * rewrite Hl, <- app_assoc. simpl. eauto.
    + simpl in Hnd. apply NoDup_remove_2 in Hnd.
      intros Hin. apply Hnd. apply in_or_app. now left.
Qed.

Lemma fixed_Dict (d : dict) : stable_dict rt d -> fixed rt (VDict d).
Proof.
  intros [Hnd Hfix]. unfold fixed. rewrite format_output_value_eq.
  unfold format_output_value_body, format_output_value_try,
    format_output_value_except.
  cbn [is_none isinstance_Enum isinstance_Mapping type_name String.eqb
       Ascii.eqb Bool.eqb subresults_of sub_items items_end raise_if_some].
  destruct (@convert_items_rebuilds d [] Hnd Hfix) as [l Hl].
  rewrite Hl. reflexivity.
Qed.

Lemma convert_elems_rebuilds (ws : list value) :
  Forall (fixed rt) ws ->
  exists l, convert_elems (map (format_output_value rt) ws) = (Ok ws, l).
Proof.
  induction 1 as [|w ws Hw _ [l IH]]; cbn [map convert_elems].
  - now exists [].
  - apply fst_ok in Hw. destruct Hw as [lw Hw].
    unfold bind at 1. rewrite Hw, IH. simpl. eauto.
Qed.

Lemma fixed_List (ws : list value) :
  (forall xs, py_hasattr rt (VList xs) "__iter__" = Ok true) ->
  Forall (fixed rt) ws -> fixed rt (VList ws).
Proof.
  intros Hiter Hfix. unfold fixed. rewrite format_output_value_eq.
  unfold format_output_value_body, format_output_value_try,
    format_output_value_except, _is_repeated_container.
  cbn [is_none isinstance_Enum isinstance_Mapping isinstance_str
       isinstance_Message type_name type_module String.eqb Ascii.eqb
       Bool.eqb subresults_of sub_elems iter_end].
  rewrite bind_ret.
  change (startswith "builtins" "google._upb._message") with false.
  cbn [andb]. rewrite Hiter, bind_lift_Ok.
  destruct (convert_elems_rebuilds Hfix) as [l Hl]. rewrite Hl. reflexivity.
Qed.

Lemma fixed_number (v : value) :
  standard_builtins rt -> is_number v = true -> fixed rt v.
Proof.
  intros [_ Hnum] Hv. destruct (Hnum v Hv) as [Hiter Hlen].
  unfold fixed. rewrite format_output_value_eq.
  unfold format_output_value_body, format_output_value_try,
    format_output_value_except, _is_repeated_container.
  rewrite Hiter, Hlen.
  destruct v; try discriminate; simpl; now rewrite andb_false_r.
Qed.

Lemma distinct_NoDup (l : list string) : distinct l = true -> NoDup l.
Proof.
  induction l as [|x l IH]; simpl; [constructor|].
  intros H. apply andb_prop in H. destruct H as [Hx Hl].
  constructor; [|now apply IH].
  intros Hin. apply existsb_eqb_In in Hin. rewrite Hin in Hx. discriminate.
Qed.

(** The normaliser returns every Normalized Value as it is. *)
Lemma fixed_normalized :
  standard_builtins rt -> forall w, normalized w = true -> fixed rt w.
Proof.
  intros Hrt w. induction w using value_nested_ind; intros Hn;
    try discriminate;
    try (apply fixed_number; [assumption | reflexivity]).
  - apply fixed_None.
  - apply fixed_Str.
  - apply fixed_List; [apply Hrt|]. simpl in Hn.
    rewrite forallb_forall in Hn. rewrite Forall_forall in *. auto.
  - simpl in Hn. apply andb_prop in Hn. destruct Hn as [Hk Hv].
    apply fixed_Dict. split; [now apply distinct_NoDup|].
    rewrite forallb_forall in Hv. rewrite Forall_forall in *. auto.
Qed.

(** What the body of the normaliser returns is left alone by the normaliser,
    or is the value it was given, as soon as that holds of what it returns
    without converting (the name of an enumeration member, the text of a
    text asset, the dict of [MessageToDict]) and of the results of its
    recursive calls. *)
Lemma body_stable (v : value) (sub : subresults) (w : value) (l : log) :
  standard_builtins rt ->
  json_MessageToDict rt ->
  (isinstance_Enum v = true ->
   forall x, py_getattr rt v "name" = Ok x -> fixed rt x) ->
  (String.eqb (type_name v) "AdTextAsset" = true ->
   forall x, py_getattr rt v "text" = Ok x -> fixed rt x) ->
  Forall (fun kc => stable_call rt (snd kc)) (sub_items sub) ->
  Forall (stable_call rt) (sub_elems sub) ->
  match sub_pb sub with
  | PbListFields fields => Forall (fun nc => stable_call rt (snd nc)) fields
  | _ => True
  end ->
  Forall (stable_attr rt) (sub_attrs sub) ->
  format_output_value_body rt v sub = (Ok w, l) ->
  fixed rt w \/ w = v.
Proof.
  intros Hrt Hjson Hname Htext Hitems Helems Hpb Hattrs H.
  unfold format_output_value_body, format_output_value_try,
    format_output_value_except in H. apply try_except_returns in H.
  destruct H as [H | (e0 & l0 & l1 & _ & H & _)].
  2:{ apply bind_returns in H. destruct H as (? & ? & ? & _ & H & _).
      apply bind_returns in H. destruct H as (s & ? & ? & _ & H & _).
      injection H as <- _. left. apply fixed_Str. }
  destruct (is_none v).
  { injection H as <- _. left. apply fixed_None. }
  destruct (isinstance_Enum v).
  { unfold lift in H. injection H as H _. left. now apply Hname. }
  apply bind_returns in H. destruct H as (text & l1 & l2 & Ht & H & _).
  destruct text.
  { destruct (String.eqb (type_name v) "AdTextAsset"); [|discriminate].
    unfold lift in H. injection H as H _. left. now apply Htext. }
  destruct (isinstance_Mapping v).
  { apply bind_returns in H. destruct H as (out & l3 & l4 & Hout & H & _).
    apply bind_returns in H. destruct H as (? & ? & ? & _ & H & _).
    injection H as <- _. left. apply fixed_Dict.
    eapply convert_items_stable; [exact Hitems | apply stable_dict_nil | exact Hout]. }
  apply bind_returns in H. destruct H as (repeated & l3 & l4 & Hr & H & _).
  destruct repeated.
  { apply bind_returns in H. destruct H as (ws & l5 & l6 & Hws & H & _).
    apply bind_returns in H. destruct H as (? & ? & ? & _ & H & _).
    injection H as <- _. left. apply fixed_List; [apply Hrt|].
    eapply convert_elems_stable; [exact Helems | exact Hws]. }
  destruct (isinstance_Message v).
  { destruct (sub_pb sub) as [| |e|fields].
    - apply bind_returns in H. destruct H as (out & l5 & l6 & Hout & H & _).
      injection H as <- _. left. apply fixed_Dict.
      eapply scan_attrs_stable; [exact Hattrs | apply stable_dict_nil | exact Hout].
    - apply bind_returns in H. destruct H as (out & l5 & l6 & Hout & H & _).
      injection H as <- _. left. apply fixed_Dict.
      eapply scan_attrs_stable; [exact Hattrs | apply stable_dict_nil | exact Hout].
    - discriminate.
    - apply bind_returns in H. destruct H as (out & l5 & l6 & Hout & H & _).
      injection H as <- _. left. apply fixed_Dict.
      eapply convert_fields_stable; [exact Hpb | apply stable_dict_nil | exact Hout]. }
  destruct (protobuf_imported rt && isinstance_ProtobufMessage v).
  { unfold lift in H. injection H as H _. left.
    apply (fixed_normalized Hrt). now apply (Hjson v). }
  injection H as <- _. now right.
Qed.

Lemma is_text_fixed (attrs : list (string * result value)) (name : string)
    (x : value) :
  is_text (assoc name attrs) = true ->
  match assoc name attrs with
  | Some r => r
  | None => Raise (AttributeError name)
  end = Ok x ->
  fixed rt x.
Proof.
  destruct (assoc name attrs) as [[y|e]|]; simpl; try discriminate.
  intros Hy [= <-]. destruct y; try discriminate. apply fixed_Str.
Qed.

Lemma stable_api_typed :
  standard_builtins rt ->
  json_MessageToDict rt ->
  forall v, api_typed v = true -> stable_call rt (format_output_value rt v).
Proof.
  intros Hrt Hjson v.
  induction v as [| | | | | | |xs IH|kvs IH|o IHattrs IHitems IHelems IHpb]
    using value_nested_ind; intros Htyped w l H;
    pose proof H as H0; rewrite format_output_value_eq in H;
    (apply body_stable in H;
     [destruct H as [H| ->]; [exact H | unfold fixed; now rewrite H0]
     | assumption | assumption | .. ]);
    try discriminate; try (now constructor); try exact I.
  - cbn [subresults_of sub_elems]. apply Forall_map.
    simpl in Htyped. rewrite forallb_forall in Htyped.
    rewrite Forall_forall in *. auto.
  - cbn [subresults_of sub_items]. apply Forall_map.
    simpl in Htyped. rewrite forallb_forall in Htyped.
    rewrite Forall_forall in *. intros kx Hin. simpl. auto.
  - simpl. intros Henum x. simpl in Htyped. rewrite Henum in Htyped.
    repeat (apply andb_prop in Htyped; destruct Htyped as [Htyped ?]).
    now apply is_text_fixed.
  - simpl. intros Hcls x. simpl in Htyped. rewrite Hcls in Htyped.
    repeat (apply andb_prop in Htyped; destruct Htyped as [Htyped ?]).
    now apply is_text_fixed.
  - cbn [subresults_of sub_items]. apply Forall_map.
    simpl in Htyped.
    repeat (apply andb_prop in Htyped; destruct Htyped as [Htyped ?]).
    match goal with Hf : forallb _ (o_items o) = true |- _ =>
      rewrite forallb_forall in Hf end.
    rewrite Forall_forall in *. intros kx Hin. simpl. auto.
  - cbn [subresults_of sub_elems]. apply Forall_map.
    simpl in Htyped.
    repeat (apply andb_prop in Htyped; destruct Htyped as [Htyped ?]).
    match goal with Hf : forallb _ (o_elems o) = true |- _ =>
      rewrite forallb_forall in Hf end.
    rewrite Forall_forall in *. auto.
  - cbn [subresults_of sub_pb]. simpl in Htyped.
    repeat (apply andb_prop in Htyped; destruct Htyped as [Htyped ?]).
    destruct (o_pb o) as [| | |fields]; try exact I.
    apply Forall_map. simpl in IHpb.
    match goal with Hf : forallb _ fields = true |- _ =>
      rewrite forallb_forall in Hf end.
    rewrite Forall_forall in *. intros nx Hin. simpl. auto.
  - cbn [subresults_of sub_attrs]. apply Forall_map.
    simpl in Htyped.
    repeat (apply andb_prop in Htyped; destruct Htyped as [Htyped ?]).
    match goal with Hf : forallb _ (o_attrs o) = true |- _ =>
      rewrite forallb_forall in Hf end.
    rewrite Forall_forall in *. intros [n [x|e]] Hin; unfold stable_attr; simpl.
    + specialize (IHattrs _ Hin). unfold holds_in_attr in IHattrs.
      simpl in IHattrs. apply IHattrs.
      match goal with Hf : forall _, In _ (o_attrs o) -> _ |- _ =>
        apply (Hf _ Hin) end.
    + exact I.
Qed.

End Fixed.

(** C8, as stated, fails: the text shorthand returns the [text] attribute
    without converting it.  For an object of a class named AdTextAsset whose
    [text] is an enumeration member, the normaliser returns the member, and
    the normaliser applied to the member returns its name. *)
Lemma normalizer_idempotent_counterexample :
  format_output_value sample_runtime odd_text_asset
  = (Ok (enum_member "ServedAssetFieldType" "HEADLINE_1" 2), []) /\
  format_output_value sample_runtime
    (enum_member "ServedAssetFieldType" "HEADLINE_1" 2)
  = (Ok (VStr "HEADLINE_1"), []) /\
  enum_member "ServedAssetFieldType" "HEADLINE_1" 2 <> VStr "HEADLINE_1".
Proof. split; [reflexivity|]. split; [reflexivity | discriminate]. Qed.

(** C8, amended.  On the values of the object model, where the name of an
    enumeration member and the text of a text asset are strings at every
    depth, the normaliser is idempotent: when [format_output_value] returns
    [w] for such a value, it returns [w] for [w].  (The runtime is Python's:
    lists are iterable, numbers are not, and [MessageToDict] returns JSON
    data.) *)
Theorem normalizer_idempotent_on_api_values (rt : runtime) (v w : value)
    (l : log) :
  standard_builtins rt ->
  json_MessageToDict rt ->
  api_typed v = true ->
  format_output_value rt v = (Ok w, l) ->
  fst (format_output_value rt w) = Ok w.
Proof.
  intros Hrt Hjson Htyped H.
  exact (stable_api_typed Hrt Hjson v Htyped H).
Qed.

Lemma normalizer_idempotent_on_api_values_witness :
  api_typed (VList [sample_text_asset; sample_campaign; VBytes []]) = true /\
  exists w,
    format_output_value sample_runtime
      (VList [sample_text_asset; sample_campaign; VBytes []]) = (Ok w, []) /\
    fst (format_output_value sample_runtime w) = Ok w.
Proof.
  split; [reflexivity|]. eexists. split; [reflexivity|].
  eapply (@normalizer_idempotent_on_api_values sample_runtime
            (VList [sample_text_asset; sample_campaign; VBytes []])).
  - split.
    + intros xs. reflexivity.
    + intros x Hx. destruct x; try discriminate; split; reflexivity.
  - intros m x Hm. injection Hm as <-. reflexivity.
  - reflexivity.
  - reflexivity.
Defined.

(** * Further properties of the resolver and the row formatter *)

Lemma split_on_cons (sep : ascii) (s : string) :
  exists p ps, split_on sep s = p :: ps.
Proof.
  induction s as [|c s [p [ps IH]]]; simpl.
  - now exists EmptyString, [].
  - destruct (Ascii.eqb c sep); [now eexists; eexists|].
    rewrite IH. now eexists; eexists.
Qed.

Lemma split_on_join (sep : ascii) (p q : string) :
  split_on sep (String.append p (String sep q))
  = split_on sep p ++ split_on sep q.
Proof.
  induction p as [|c p IH]; simpl.
  - now rewrite Ascii.eqb_refl.
  - destruct (Ascii.eqb c sep); [now rewrite IH|].
    rewrite IH. destruct (split_on_cons sep p) as [h [t ->]]. reflexivity.
Qed.

(** X1. Paths compose: resolving [p.q] is resolving [p] and then resolving
    [q] on the result, and fails as [p] fails. *)
Theorem get_nested_attr_safe_compose (rt : runtime) (obj : value) (p q : string) :
  get_nested_attr_safe rt obj (String.append p (String "." q))
  = match get_nested_attr_safe rt obj p with
    | Ok cur => get_nested_attr_safe rt cur q
    | Raise e => Raise e
    end.
Proof.
  unfold get_nested_attr_safe. rewrite split_on_join. apply resolve_parts_app.
Qed.

(** X2. Every path, the empty one included, has a first segment that is
    looked up, so no path resolves against a None row: the resolver refuses
    it with its first segment, and [format_output_row] binds every path of
    the list to None and logs one failure per path. *)
Theorem none_row_is_all_none (rt : runtime) (attributes : list string) :
  (forall path, exists s rest,
     split_on "." path = s :: rest /\
     get_nested_attr_safe rt VNone path = Raise (AttributeError s)) /\
  exists out l,
    format_output_row rt VNone attributes = (Ok out, l) /\
    (forall p, In p attributes -> dict_get p out = Some VNone) /\
    List.length l = List.length attributes.
Proof.
  assert (Hnone : forall path, exists s rest,
            split_on "." path = s :: rest /\
            get_nested_attr_safe rt VNone path = Raise (AttributeError s)).
  { intros path. destruct (split_on_cons "." path) as [s [rest E]].
    exists s, rest. split; [exact E|].
    unfold get_nested_attr_safe. now rewrite E. }
  split; [exact Hnone|].
  assert (Hfield : forall p, exists s,
            field_value rt VNone p = (Raise (AttributeError s), [])).
  { intros p. destruct (Hnone p) as (s & rest & _ & H). exists s.
    unfold field_value. now rewrite H. }
  unfold format_output_row. rewrite row_loop_writes.
  eexists. eexists. split; [reflexivity|]. split.
  - intros p Hin. rewrite writes_get. apply existsb_eqb_In in Hin.
    rewrite Hin. unfold cell. destruct (Hfield p) as [s ->]. reflexivity.
  - induction attributes as [|p rest IH]; [reflexivity|].
    cbn [flat_map]. rewrite List.length_app, IH. unfold field_log.
    destruct (Hfield p) as [s ->]. reflexivity.
Qed.

Lemma none_row_is_all_none_witness :
  exists out l,
    format_output_row sample_runtime VNone ["campaign.id"; "__class__"]
    = (Ok out, l) /\
    dict_get "__class__" out = Some VNone /\
    List.length l = 2.
Proof.
  destruct (proj2 (none_row_is_all_none sample_runtime
                     ["campaign.id"; "__class__"]))
    as (out & l & Hrun & Hnone & Hlen).
  exists out, l. split; [exact Hrun|]. split; [|exact Hlen].
  apply Hnone. simpl. tauto.
Defined.

Lemma first_occurrences_from_NoDup_id (seen l : list string) :
  NoDup l -> (forall x, In x l -> ~ In x seen) ->
  first_occurrences_from seen l = l.
Proof.
  intros Hnd. revert seen. induction Hnd as [|x l Hx _ IH]; intros seen Hs; simpl.
  - reflexivity.
  - destruct (existsb (String.eqb x) seen) eqn:E.
    + apply existsb_eqb_In in E. exfalso. apply (Hs x); simpl; auto.
    + f_equal. apply IH. intros y Hy [<-|Hin]; [contradiction|].
      apply (Hs y); simpl; auto.
Qed.

(** X3. For a list of distinct paths the row has exactly one entry per path,
    in the order of the list. *)
Theorem format_output_row_distinct_paths (rt : runtime) (row : value)
    (attributes : list string) :
  NoDup attributes ->
  exists out l,
    format_output_row rt row attributes = (Ok out, l) /\
    dict_keys out = attributes /\
    map snd out = map (cell rt row) attributes.
Proof.
  intros Hnd. unfold format_output_row. rewrite row_loop_writes.
  eexists. eexists. split; [reflexivity|].
  assert (K : dict_keys
                (fold_left (fun d p => dict_set p (cell rt row p) d) attributes [])
              = attributes).
  { rewrite writes_keys. simpl. apply first_occurrences_from_NoDup_id; auto. }
  split; [exact K|].
  set (out := fold_left (fun d p => dict_set p (cell rt row p) d) attributes []) in *.
  assert (G : forall p, In p attributes -> dict_get p out = Some (cell rt row p)).
  { intros p Hin. unfold out. rewrite writes_get.
    apply existsb_eqb_In in Hin. now rewrite Hin. }
  clearbody out. subst attributes. unfold dict_keys in *.
  induction out as [|[k w] out IH]; [reflexivity|]. simpl in *.
  inversion Hnd as [|? ? Hk Hnd']; subst. f_equal.
  - specialize (G k (or_introl eq_refl)). unfold dict_get in G. simpl in G.
    rewrite String.eqb_refl in G. congruence.
  - apply IH; [assumption|]. intros p Hin.
    specialize (G p (or_intror Hin)). unfold dict_get in *. simpl in G.
    destruct (String.eqb_spec p k) as [E|_]; [|exact G].
    rewrite E in Hin. contradiction.
Qed.

Lemma format_output_row_distinct_paths_witness :
  exists out l,
    format_output_row sample_runtime sample_row
      ["campaign.id"; "campaign.missing"] = (Ok out, l) /\
    dict_keys out = ["campaign.id"; "campaign.missing"].
Proof.
  destruct (@format_output_row_distinct_paths sample_runtime sample_row
              ["campaign.id"; "campaign.missing"])
    as (out & l & Hrun & Hkeys & _).
  - repeat constructor; simpl; intuition discriminate.
  - now exists out, l.
Defined.

(** ** What each function logs *)

Section Logs.

Variable Q : log_record -> Prop.

Lemma bind_log {A B} (m : M A) (k : A -> M B) :
  Forall Q (snd m) -> (forall a, Forall Q (snd (k a))) ->
  Forall Q (snd (bind m k)).
Proof.
  intros Hm Hk. unfold bind. destruct m as [[a|e] l]; simpl in *; [|exact Hm].
  specialize (Hk a). destruct (k a) as [r l']. simpl in *.
  apply Forall_app. now split.
Qed.

Lemma try_except_log {A} (body : M A) (handler : exn -> M A) :
  Forall Q (snd body) -> (forall e, Forall Q (snd (handler e))) ->
  Forall Q (snd (try_except body handler)).
Proof.
  intros Hb Hh. unfold try_except. destruct body as [[a|e] l]; simpl in *;
    [exact Hb|].
  specialize (Hh e). destruct (handler e) as [r l']. simpl in *.
  apply Forall_app. now split.
Qed.

Lemma convert_items_log (rt : runtime) (items : list (value * M value))
    (out : dict) :
  Forall (fun kc => Forall Q (snd (snd kc))) items ->
  Forall Q (snd (convert_items rt items out)).
Proof.
  intros H. revert out. induction H as [|[k call] items Hc _ IH]; intros out;
    cbn [convert_items].
  - constructor.
  - apply bind_log; [constructor|]. intros key.
    apply bind_log; [exact Hc|]. intros w. apply IH.
Qed.

Lemma convert_elems_log (elems : list (M value)) :
  Forall (fun call => Forall Q (snd call)) elems ->
  Forall Q (snd (convert_elems elems)).
Proof.
  induction 1 as [|call elems Hc _ IH]; cbn [convert_elems].
  - constructor.
  - apply bind_log; [exact Hc|]. intros w.
    apply bind_log; [exact IH|]. intros ws. constructor.
Qed.

Lemma convert_fields_log (fields : list (string * M value)) (out : dict) :
  Forall (fun nc => Forall Q (snd (snd nc))) fields ->
  Forall Q (snd (convert_fields fields out)).
Proof.
  intros H. revert out. induction H as [|[n call] fields Hc _ IH]; intros out;
    cbn [convert_fields].
  - constructor.
  - apply bind_log; [exact Hc|]. intros w. apply IH.
Qed.

Lemma scan_attrs_log (attrs : list (string * result (value * M value)))
    (names : list string) (out : dict) :
  Forall (fun nr => match snd nr with
                    | Ok xc => Forall Q (snd (snd xc))
                    | Raise _ => True
                    end) attrs ->
  Forall Q (snd (scan_attrs attrs names out)).
Proof.
  intros H. revert out. induction names as [|attr names IH]; intros out;
    cbn [scan_attrs].
  - constructor.
  - destruct (startswith attr "_"); [apply IH|].
    destruct (assoc attr attrs) as [[[x call]|e]|] eqn:E; try apply IH.
    destruct (callable x); [apply IH|].
    apply bind_log; [|intros w; apply IH].
    apply assoc_In in E. rewrite Forall_forall in H. apply (H _ E).
Qed.

End Logs.

Lemma format_output_value_try_log (rt : runtime) (v : value) (sub : subresults) :
  Forall (fun kc => Forall is_value_record (snd (snd kc))) (sub_items sub) ->
  Forall (fun call => Forall is_value_record (snd call)) (sub_elems sub) ->
  match sub_pb sub with
  | PbListFields fields =>
      Forall (fun nc => Forall is_value_record (snd (snd nc))) fields
  | _ => True
  end ->
  Forall (fun nr => match snd nr with
                    | Ok xc => Forall is_value_record (snd (snd xc))
                    | Raise _ => True
                    end) (sub_attrs sub) ->
  Forall is_value_record (snd (format_output_value_body rt v sub)).
Proof.
  intros Hitems Helems Hpb Hattrs.
  unfold format_output_value_body. apply try_except_log.
  2:{ intros e. unfold format_output_value_except.
      apply bind_log; [repeat constructor|]. intros _.
      apply bind_log; [constructor|]. intros s. constructor. }
  unfold format_output_value_try.
  destruct (is_none v); [constructor|].
  destruct (isinstance_Enum v); [constructor|].
  apply bind_log.
  { destruct (String.eqb (type_name v) "AdTextAsset"); constructor. }
  intros [|]; [constructor|].
  destruct (isinstance_Mapping v).
  { apply bind_log; [now apply convert_items_log|]. intros out.
    apply bind_log; [destruct (items_end v); constructor|]. intros _. constructor. }
  apply bind_log; [constructor|]. intros [|].
  { apply bind_log; [now apply convert_elems_log|]. intros ws.
    apply bind_log; [destruct (iter_end v); constructor|]. intros _. constructor. }
  destruct (isinstance_Message v).
  { destruct (sub_pb sub).
    - apply bind_log; [now apply scan_attrs_log|]. intros out. constructor.
    - apply bind_log; [now apply scan_attrs_log|]. intros out. constructor.
    - constructor.
    - apply bind_log; [now apply convert_fields_log|]. intros out. constructor. }
  destruct (protobuf_imported rt && isinstance_ProtobufMessage v); constructor.
Qed.

(** The normaliser writes value records only. *)
Lemma format_output_value_log (rt : runtime) (v : value) :
  Forall is_value_record (snd (format_output_value rt v)).
Proof.
  induction v as [| | | | | | |xs IH|kvs IH|o IHattrs IHitems IHelems IHpb]
    using value_nested_ind;
    rewrite format_output_value_eq; apply format_output_value_try_log;
    try (now constructor); try exact I.
  - cbn [subresults_of sub_elems]. apply Forall_map. exact IH.
  - cbn [subresults_of sub_items]. apply Forall_map.
    rewrite Forall_forall in *. intros kx Hin. simpl. auto.
  - cbn [subresults_of sub_items]. apply Forall_map.
    rewrite Forall_forall in *. intros kx Hin. simpl. auto.
  - cbn [subresults_of sub_elems]. apply Forall_map. exact IHelems.
  - cbn [subresults_of sub_pb]. destruct (o_pb o) as [| | |fields]; try exact I.
    apply Forall_map. simpl in IHpb.
    rewrite Forall_forall in *. intros nx Hin. simpl. auto.
  - cbn [subresults_of sub_attrs]. apply Forall_map.
    rewrite Forall_forall in *. intros [n [x|e]] Hin; simpl; [|exact I].
    apply (IHattrs _ Hin).
Qed.

(** X4. The row formatter logs a failure for a path exactly when resolving
    or normalising that path raised, with the exception raised; and a path
    that resolves and normalises is bound to the normalised value. *)
Theorem format_output_row_logs_exactly (rt : runtime) (row : value)
    (attributes : list string) :
  exists out l,
    format_output_row rt row attributes = (Ok out, l) /\
    (forall p e,
       In (LogFieldFailed p e) l <->
       In p attributes /\ exists lp, field_value rt row p = (Raise e, lp)) /\
    (forall p w lp,
       In p attributes -> field_value rt row p = (Ok w, lp) ->
       dict_get p out = Some w).
Proof.
  unfold format_output_row. rewrite row_loop_writes.
  eexists. eexists. split; [reflexivity|]. split.
  - intros p e. rewrite in_flat_map. split.
    + intros (q & Hq & Hin). unfold field_log in Hin.
      apply in_app_or in Hin. destruct Hin as [Hin|Hin].
      * exfalso.
        assert (Hv : Forall is_value_record (snd (field_value rt row q))).
        { unfold field_value. apply bind_log; [constructor|].
          intros raw. apply format_output_value_log. }
        rewrite Forall_forall in Hv. apply (Hv _ Hin).
      * destruct (field_value rt row q) as [[w|e'] lp] eqn:E; simpl in Hin;
          [contradiction|].
        destruct Hin as [[= <- <-]|[]]. split; [assumption|]. now exists lp.
    + intros (Hin & lp & Hfail). exists p. split; [assumption|].
      unfold field_log. rewrite Hfail. apply in_or_app. right. now left.
  - intros p w lp Hin Hok. rewrite writes_get.
    apply existsb_eqb_In in Hin. rewrite Hin. unfold cell. now rewrite Hok.
Qed.

Lemma format_output_row_logs_exactly_witness :
  exists out l,
    format_output_row sample_runtime sample_row
      ["campaign.id"; "campaign.missing"] = (Ok out, l) /\
    dict_get "campaign.id" out = Some (VInt 123) /\
    In (LogFieldFailed "campaign.missing" (AttributeError "missing")) l.
Proof.
  destruct (format_output_row_logs_exactly sample_runtime sample_row
              ["campaign.id"; "campaign.missing"])
    as (out & l & Hrun & Hlog & Hok).
  exists out, l. split; [exact Hrun|]. split.
  - apply (Hok "campaign.id" (VInt 123) []); [simpl; tauto | reflexivity].
  - apply Hlog. split; [simpl; tauto|]. exists []. reflexivity.
Defined.

(** * Further properties of the value normaliser *)

(** ** Dicts built by assignments *)

Lemma writes_from_keys (writes : list (string * value)) (d : dict) :
  dict_keys (fold_left (fun d kw => dict_set (fst kw) (snd kw) d) writes d)
  = dict_keys d ++ first_occurrences_from (dict_keys d) (map fst writes).
Proof.
  revert d. induction writes as [|[k w] writes IH]; intros d; simpl.
  - now rewrite app_nil_r.
  - rewrite IH, dict_keys_set.
    destruct (existsb (String.eqb k) (dict_keys d)) eqn:E; [reflexivity|].
    rewrite <- app_assoc. simpl. do 2 f_equal.
    apply first_occurrences_from_ext. intros x.
    rewrite in_app_iff. simpl. tauto.
Qed.

Lemma writes_from_get_other (writes : list (string * value)) (d : dict)
    (k : string) :
  ~ In k (map fst writes) ->
  dict_get k (fold_left (fun d kw => dict_set (fst kw) (snd kw) d) writes d)
  = dict_get k d.
Proof.
  revert d. induction writes as [|[k' w'] writes IH]; intros d Hn; simpl.
  - reflexivity.
  - simpl in Hn. rewrite IH by tauto. apply dict_get_set_other. tauto.
Qed.

Lemma dict_of_writes_keys (writes : list (string * value)) :
  dict_keys (dict_of_writes writes) = first_occurrences (map fst writes).
Proof. unfold dict_of_writes. now rewrite writes_from_keys. Qed.

Lemma dict_of_writes_last (pre post : list (string * value)) (k : string)
    (w : value) :
  ~ In k (map fst post) ->
  dict_get k (dict_of_writes (pre ++ (k, w) :: post)) = Some w.
Proof.
  intros Hn. unfold dict_of_writes. rewrite fold_left_app. simpl.
  rewrite writes_from_get_other by assumption. apply dict_get_set_same.
Qed.

Lemma writes_from_fresh (writes : list (string * value)) (d : dict) :
  NoDup (dict_keys d ++ map fst writes) ->
  fold_left (fun d kw => dict_set (fst kw) (snd kw) d) writes d = d ++ writes.
Proof.
  revert d. induction writes as [|[k w] writes IH]; intros d Hnd; simpl.
  - now rewrite app_nil_r.
  - simpl in Hnd. rewrite dict_set_fresh.
    + rewrite IH.
      * now rewrite <- app_assoc.
      * unfold dict_keys in *. rewrite map_app, <- app_assoc. exact Hnd.
    + apply NoDup_remove_2 in Hnd. intros Hin. apply Hnd.
      apply in_or_app. now left.
Qed.

Lemma dict_of_writes_distinct (writes : list (string * value)) :
  NoDup (map fst writes) -> dict_of_writes writes = writes.
Proof. intros H. unfold dict_of_writes. now rewrite writes_from_fresh. Qed.

(** ** Conversions whose calls all return *)

Section Runs.

Variable rt : runtime.

Lemma convert_items_run (items : list (value * M value))
    (printed : list string) (ws : list value) (out : dict) :
  Forall2 (fun kc s => py_str rt (fst kc) = Ok s) items printed ->
  Forall2 (fun kc w => fst (snd kc) = Ok w) items ws ->
  fst (convert_items rt items out)
  = Ok (fold_left (fun d kw => dict_set (fst kw) (snd kw) d)
          (combine printed ws) out).
Proof.
  intros Hp. revert ws out.
  induction Hp as [|[k call] s items printed Hs _ IH]; intros ws out Hw;
    inversion Hw as [|? w ? ws' Hcall Hw']; subst; cbn [convert_items combine fold_left].
  - reflexivity.
  - simpl in Hs, Hcall. rewrite Hs, bind_lift_Ok.
    apply fst_ok in Hcall. destruct Hcall as [l Hcall].
    rewrite (bind_ok _ Hcall). now apply IH.
Qed.

Lemma convert_elems_run (elems : list (M value)) (ws : list value) :
  Forall2 (fun call w => fst call = Ok w) elems ws ->
  fst (convert_elems elems) = Ok ws.
Proof.
  induction 1 as [|call w elems ws Hcall _ IH]; cbn [convert_elems].
  - reflexivity.
  - apply fst_ok in Hcall. destruct Hcall as [l Hcall].
    rewrite (bind_ok _ Hcall).
    apply fst_ok in IH. destruct IH as [l' IH].
    now rewrite (bind_ok _ IH).
Qed.

Lemma convert_fields_run (fields : list (string * M value)) (ws : list value)
    (out : dict) :
  Forall2 (fun nc w => fst (snd nc) = Ok w) fields ws ->
  fst (convert_fields fields out)
  = Ok (fold_left (fun d kw => dict_set (fst kw) (snd kw) d)
          (combine (map fst fields) ws) out).
Proof.
  intros H. revert out.
  induction H as [|[n call] w fields ws Hcall _ IH]; intros out;
    cbn [convert_fields map combine fold_left].
  - reflexivity.
  - simpl in Hcall. apply fst_ok in Hcall. destruct Hcall as [l Hcall].
    rewrite (bind_ok _ Hcall). apply IH.
Qed.

(** The scan over [dir(value)] is the loop over the fields for the
    attributes it keeps. *)
Lemma scan_attrs_public (attrs : list (string * result value))
    (names : list string) (out : dict) :
  scan_attrs
    (map (fun nr => (fst nr,
                     match snd nr with
                     | Ok x => Ok (x, format_output_value rt x)
                     | Raise e => Raise e
                     end)) attrs) names out
  = convert_fields
      (map (fun nx => (fst nx, format_output_value rt (snd nx)))
         (public_attrs attrs names)) out.
Proof.
  assert (A : forall name,
            assoc name
              (map (fun nr => (fst nr,
                               match snd nr with
                               | Ok x => Ok (x, format_output_value rt x)
                               | Raise e => Raise e
                               end)) attrs)
            = match assoc name attrs with
              | Some (Ok x) => Some (Ok (x, format_output_value rt x))
              | Some (Raise e) => Some (Raise e)
              | None => None
              end).
  { intros name. induction attrs as [|[n r] attrs IH]; simpl; [reflexivity|].
    destruct (String.eqb name n); [now destruct r | exact IH]. }
  revert out. induction names as [|name names IH]; intros out;
    cbn [scan_attrs public_attrs flat_map]; [reflexivity|].
  fold (public_attrs attrs names).
  destruct (startswith name "_"); [apply IH|].
  rewrite A. destruct (assoc name attrs) as [[x|e]|]; try apply IH.
  destruct (callable x); [apply IH|].
  cbn [app map convert_fields fst snd]. unfold bind.
  destruct (format_output_value rt x) as [[w|e] l]; [|reflexivity].
  now rewrite IH.
Qed.

Lemma irc_true (v : value) :
  _is_repeated_container rt v = Ok true ->
  is_none v = false /\ isinstance_Mapping v = false
  /\ isinstance_Message v = false.
Proof.
  unfold _is_repeated_container.
  destruct (is_none v); [discriminate|].
  destruct (isinstance_str v); [discriminate|].
  destruct (isinstance_Mapping v); [discriminate|].
  destruct (isinstance_Message v); [discriminate|]. auto.
Qed.

Lemma sub_elems_of (v : value) :
  sub_elems (subresults_of rt v) = map (format_output_value rt) (elements v).
Proof. destruct v; reflexivity. Qed.

Lemma sub_items_of (v : value) :
  sub_items (subresults_of rt v)
  = map (fun kx => (fst kx, format_output_value rt (snd kx))) (mapping_items v).
Proof.
  destruct v; try reflexivity. simpl. rewrite map_map. reflexivity.
Qed.

Lemma try_except_ok {A} (body : M A) (handler : exn -> M A) (a : A) :
  fst body = Ok a -> fst (try_except body handler) = Ok a.
Proof. destruct body as [[a0|e] l]; simpl; [auto | discriminate]. Qed.

End Runs.

(** X5. A repeated container is converted element by element: when its
    elements normalise to [ws], the container normalises to the list [ws],
    same length and same order, whatever the elements logged on the way. *)
Theorem repeated_container_elementwise (rt : runtime) (v : value)
    (ws : list value) :
  isinstance_Enum v = false ->
  String.eqb (type_name v) "AdTextAsset" = false ->
  _is_repeated_container rt v = Ok true ->
  iter_end v = None ->
  Forall2 (fun x w => fst (format_output_value rt x) = Ok w) (elements v) ws ->
  fst (format_output_value rt v) = Ok (VList ws).
Proof.
  intros Henum Hname Hirc Hend Hws.
  destruct (irc_true rt v Hirc) as (Hnone & Hmap & _).
  rewrite format_output_value_eq. unfold format_output_value_body.
  apply try_except_ok. unfold format_output_value_try.
  rewrite Hnone, Henum, Hname, bind_ret, Hmap, Hirc, bind_lift_Ok, Hend.
  rewrite sub_elems_of.
  assert (E : fst (convert_elems (map (format_output_value rt) (elements v)))
              = Ok ws).
  { apply convert_elems_run. clear -Hws.
    induction Hws; simpl; constructor; auto. }
  apply fst_ok in E. destruct E as [l E].
  rewrite (bind_ok _ E). reflexivity.
Qed.

Lemma repeated_container_elementwise_witness :
  fst (format_output_value sample_runtime
         (repeated_scalar [VInt 1; sample_text_asset; VBytes []]))
  = Ok (VList [VInt 1; VStr "Buy Now"; VBytes []]).
Proof.
  apply repeated_container_elementwise; try reflexivity.
  repeat constructor.
Defined.

(** X6. A mapping is converted item by item: its keys are printed with
    [str] and its values normalised.  The result has the printed keys, once
    each, in the order of their first occurrence, and two keys that print
    alike collapse into one entry that holds the value of the later item. *)
Theorem mapping_conversion (rt : runtime) (v : value) (printed : list string)
    (ws : list value) :
  isinstance_Enum v = false ->
  String.eqb (type_name v) "AdTextAsset" = false ->
  isinstance_Mapping v = true ->
  items_end v = None ->
  Forall2 (fun kx s => py_str rt (fst kx) = Ok s) (mapping_items v) printed ->
  Forall2 (fun kx w => fst (format_output_value rt (snd kx)) = Ok w)
    (mapping_items v) ws ->
  fst (format_output_value rt v)
  = Ok (VDict (dict_of_writes (combine printed ws))) /\
  dict_keys (dict_of_writes (combine printed ws)) = first_occurrences printed /\
  (forall pre s w post,
     combine printed ws = pre ++ (s, w) :: post ->
     ~ In s (map fst post) ->
     dict_get s (dict_of_writes (combine printed ws)) = Some w).
Proof.
  intros Henum Hname Hmap Hend Hp Hws. split; [|split].
  - assert (Hnone : is_none v = false) by (destruct v; try discriminate; reflexivity).
    rewrite format_output_value_eq. unfold format_output_value_body.
    apply try_except_ok. unfold format_output_value_try.
    rewrite Hnone, Henum, Hname, bind_ret, Hmap, Hend, sub_items_of.
    assert (E : fst (convert_items rt
                       (map (fun kx => (fst kx, format_output_value rt (snd kx)))
                          (mapping_items v)) [])
                = Ok (dict_of_writes (combine printed ws))).
    { apply convert_items_run.
      - clear -Hp. induction Hp; simpl; constructor; auto.
      - clear -Hws. induction Hws; simpl; constructor; auto. }
    apply fst_ok in E. destruct E as [l E].
    rewrite (bind_ok _ E). reflexivity.
  - rewrite dict_of_writes_keys. f_equal.
    assert (L : List.length printed = List.length ws).
    { rewrite <- (Forall2_length Hp). apply (Forall2_length Hws). }
    clear -L. revert ws L. induction printed as [|s printed IH];
      intros [|w ws] L; try discriminate; [reflexivity|].
    simpl. f_equal. apply IH. now injection L.
  - intros pre s w post -> Hn. now apply dict_of_writes_last.
Qed.

Lemma mapping_conversion_witness :
  fst (format_output_value sample_runtime
         (VDict [("id", VInt 7); ("label", sample_text_asset)]))
  = Ok (VDict [("id", VInt 7); ("label", VStr "Buy Now")]).
Proof.
  apply (@mapping_conversion sample_runtime
           (VDict [("id", VInt 7); ("label", sample_text_asset)])
           ["id"; "label"] [VInt 7; VStr "Buy Now"]);
    try reflexivity; repeat constructor.
Defined.

(** X7. A proto-plus message whose raw message lists its populated fields is
    converted to a dict of exactly those fields, in the order listed, each
    with its normalised value; no other attribute of the message gets into
    the result. *)
Theorem message_fields_conversion (rt : runtime) (o : object value)
    (fields : list (string * value)) (ws : list value) :
  cls_is_Enum (o_class o) = false ->
  String.eqb (cls_name (o_class o)) "AdTextAsset" = false ->
  cls_is_Mapping (o_class o) = false ->
  cls_is_Message (o_class o) = true ->
  o_pb o = PbListFields fields ->
  NoDup (map fst fields) ->
  Forall2 (fun nx w => fst (format_output_value rt (snd nx)) = Ok w) fields ws ->
  fst (format_output_value rt (VObj o))
  = Ok (VDict (combine (map fst fields) ws)).
Proof.
  intros Henum Hname Hmap Hmsg Hpb Hnd Hws.
  assert (Hirc : _is_repeated_container rt (VObj o) = Ok false).
  { unfold _is_repeated_container. simpl. rewrite Hmap, Hmsg.
    now destruct (cls_is_str (o_class o)). }
  assert (Hkeys : NoDup (map fst (combine (map fst fields) ws))).
  { clear -Hnd Hws. revert ws Hws.
    induction fields as [|[n x] fields IH]; intros ws Hws;
      inversion Hws; subst; simpl; [constructor|].
    inversion Hnd; subst. constructor; [|auto].
    intros Hin. apply in_map_iff in Hin.
    destruct Hin as [[n' w'] [E Hin]]. simpl in E. subst n'.
    apply in_combine_l in Hin. contradiction. }
  assert (E : fst (convert_fields
                     (map (fun nx => (fst nx, format_output_value rt (snd nx)))
                        fields) [])
              = Ok (combine (map fst fields) ws)).
  { rewrite (@convert_fields_run _ ws).
    - rewrite map_map. simpl. f_equal.
      exact (dict_of_writes_distinct _ Hkeys).
    - clear -Hws. induction Hws; simpl; constructor; auto. }
  apply fst_ok in E. destruct E as [l E].
  rewrite format_output_value_eq. unfold format_output_value_body.
  apply try_except_ok. unfold format_output_value_try. rewrite Hirc.
  cbn [is_none isinstance_Enum isinstance_Mapping isinstance_Message type_name
       subresults_of sub_pb].
  rewrite Henum, Hname, bind_ret, Hmap, bind_lift_Ok, Hmsg, Hpb.
  rewrite (bind_ok _ E). reflexivity.
Qed.

Lemma message_fields_conversion_witness :
  fst (format_output_value sample_runtime (VObj iterable_message))
  = Ok (VDict [("units", VInt 5)]).
Proof.
  apply (@message_fields_conversion sample_runtime iterable_message
           [("units", VInt 5)] [VInt 5]);
    try reflexivity; repeat constructor; simpl; tauto.
Defined.

Lemma public_attrs_In (attrs : list (string * result value))
    (names : list string) (k : string) (x : value) :
  In (k, x) (public_attrs attrs names) <->
  In k names /\ startswith k "_" = false /\
  assoc k attrs = Some (Ok x) /\ callable x = false.
Proof.
  unfold public_attrs. rewrite in_flat_map. split.
  - intros (name & Hname & Hin).
    destruct (startswith name "_") eqn:Hs; [contradiction|].
    destruct (assoc name attrs) as [[y|e]|] eqn:Ha; try contradiction.
    destruct (callable y) eqn:Hc; [contradiction|].
    destruct Hin as [[= <- <-]|[]]. auto.
  - intros (Hname & Hs & Ha & Hc). exists k. split; [assumption|].
    rewrite Hs, Ha, Hc. now left.
Qed.

(** X8. A proto-plus message without a raw message to list its fields is
    converted by scanning [dir]: the result holds the attributes whose name
    does not start with an underscore, that can be read and whose value is
    not callable, each with its normalised value, and nothing else; private
    names, methods and attributes whose getter raises are left out. *)
Theorem message_scan_conversion (rt : runtime) (o : object value)
    (ws : list value) :
  cls_is_Enum (o_class o) = false ->
  String.eqb (cls_name (o_class o)) "AdTextAsset" = false ->
  cls_is_Mapping (o_class o) = false ->
  cls_is_Message (o_class o) = true ->
  o_pb o = PbNone \/ o_pb o = PbNoListFields ->
  Forall2 (fun nx w => fst (format_output_value rt (snd nx)) = Ok w)
    (public_attrs (o_attrs o) (o_dir o)) ws ->
  exists out,
    fst (format_output_value rt (VObj o)) = Ok (VDict out) /\
    out = dict_of_writes
            (combine (map fst (public_attrs (o_attrs o) (o_dir o))) ws) /\
    (forall k,
       In k (dict_keys out) <->
       In k (o_dir o) /\ startswith k "_" = false /\
       exists x, assoc k (o_attrs o) = Some (Ok x) /\ callable x = false).
Proof.
  intros Henum Hname Hmap Hmsg Hpb Hws.
  assert (Hirc : _is_repeated_container rt (VObj o) = Ok false).
  { unfold _is_repeated_container. simpl. rewrite Hmap, Hmsg.
    now destruct (cls_is_str (o_class o)). }
  eexists. split; [|split; [reflexivity|]].
  - assert (E : fst (convert_fields
                       (map (fun nx => (fst nx, format_output_value rt (snd nx)))
                          (public_attrs (o_attrs o) (o_dir o))) [])
                = Ok (dict_of_writes
                        (combine (map fst (public_attrs (o_attrs o) (o_dir o)))
                           ws))).
    { rewrite (@convert_fields_run _ ws).
      - rewrite map_map. reflexivity.
      - clear -Hws. induction Hws; simpl; constructor; auto. }
    apply fst_ok in E. destruct E as [l E].
    rewrite format_output_value_eq. unfold format_output_value_body.
    apply try_except_ok. unfold format_output_value_try. rewrite Hirc.
    cbn [is_none isinstance_Enum isinstance_Mapping isinstance_Message
         type_name subresults_of sub_pb sub_attrs].
    rewrite Henum, Hname, bind_ret, Hmap, bind_lift_Ok, Hmsg.
    rewrite scan_attrs_public.
    destruct Hpb as [-> | ->]; rewrite (bind_ok _ E); reflexivity.
  - intros k. rewrite dict_of_writes_keys.
    unfold first_occurrences. rewrite first_occurrences_from_In.
    assert (L : map fst (combine (map fst (public_attrs (o_attrs o) (o_dir o))) ws)
                = map fst (public_attrs (o_attrs o) (o_dir o))).
    { clear -Hws. induction Hws as [|[n x] w l ws _ _ IH]; simpl;
        [reflexivity | now rewrite IH]. }
    rewrite L, in_map_iff. split.
    + intros [([k' x] & <- & Hin) _]. apply public_attrs_In in Hin.
      simpl. destruct Hin as (? & ? & ? & ?). eauto.
    + intros (Hdir & Hs & x & Ha & Hc). split; [|simpl; tauto].
      exists (k, x). split; [reflexivity|]. apply public_attrs_In. auto.
Qed.

Lemma message_scan_conversion_witness :
  fst (format_output_value sample_runtime sample_campaign)
  = Ok (VDict [("id", VInt 123); ("name", VStr "Spring Sale");
               ("status", VStr "ENABLED"); ("budget_", VInt 500);
               ("bidding_strategy", VNone)]).
Proof.
  pose proof (@message_scan_conversion sample_runtime
                (match sample_campaign with VObj o => o | _ => iterable_message end)
                [VInt 123; VStr "Spring Sale"; VStr "ENABLED"; VInt 500; VNone]
                eq_refl eq_refl eq_refl eq_refl (or_introl eq_refl)) as H.
  specialize (H ltac:(repeat constructor)).
  destruct H as (out & Hrun & -> & _). exact Hrun.
Defined.

(** ** Results that are Normalized Values *)

Section Good.

Variable Q : value -> Prop.

Lemma good_dict_set (k : string) (w : value) (d : dict) :
  Q w -> good_dict Q d -> good_dict Q (dict_set k w d).
Proof.
  intros Hw [Hk Hv]. split; [now apply dict_keys_set_NoDup|].
  rewrite Forall_forall in *. intros kx Hin.
  apply dict_set_In in Hin. destruct Hin as [->|Hin]; [assumption | now apply Hv].
Qed.

Lemma convert_items_good (rt : runtime) (items : list (value * M value))
    (out out' : dict) (l : log) :
  Forall (fun kc => good_call Q (snd kc)) items ->
  good_dict Q out ->
  convert_items rt items out = (Ok out', l) ->
  good_dict Q out'.
Proof.
  intros Hitems. revert out l.
  induction Hitems as [|[k call] items Hcall _ IH]; intros out l Hout;
    cbn [convert_items].
  - now intros [= <- _].
  - intros H. apply bind_returns in H. destruct H as (key & l1 & l2 & _ & H & _).
    apply bind_returns in H. destruct H as (w & l3 & l4 & Hw & H & _).
    apply IH in H; [assumption|].
    apply good_dict_set; [|assumption]. now apply (Hcall w l3).
Qed.

Lemma convert_elems_good (elems : list (M value)) (ws : list value) (l : log) :
  Forall (good_call Q) elems ->
  convert_elems elems = (Ok ws, l) ->
  Forall Q ws.
Proof.
  intros Helems. revert ws l.
  induction Helems as [|call elems Hcall _ IH]; intros ws l;
    cbn [convert_elems].
  - intros [= <- _]. constructor.
  - intros H. apply bind_returns in H. destruct H as (w & l1 & l2 & Hw & H & _).
    apply bind_returns in H. destruct H as (ws' & l3 & l4 & Hws & H & _).
    injection H as <- _. constructor; [now apply (Hcall w l1) | now apply (IH ws' l3)].
Qed.

Lemma convert_fields_good (fields : list (string * M value)) (out out' : dict)
    (l : log) :
  Forall (fun nc => good_call Q (snd nc)) fields ->
  good_dict Q out ->
  convert_fields fields out = (Ok out', l) ->
  good_dict Q out'.
Proof.
  intros Hfields. revert out l.
  induction Hfields as [|[name call] fields Hcall _ IH]; intros out l Hout;
    cbn [convert_fields].
  - now intros [= <- _].
  - intros H. apply bind_returns in H. destruct H as (w & l1 & l2 & Hw & H & _).
    apply IH in H; [assumption|].
    apply good_dict_set; [|assumption]. now apply (Hcall w l1).
Qed.

Lemma scan_attrs_good (attrs : list (string * result (value * M value)))
    (names : list string) (out out' : dict) (l : log) :
  Forall (fun nr => match snd nr with
                    | Ok xc =>
                        startswith (fst nr) "_" = false ->
                        callable (fst xc) = false ->
                        good_call Q (snd xc)
                    | Raise _ => True
                    end) attrs ->
  good_dict Q out ->
  scan_attrs attrs names out = (Ok out', l) ->
  good_dict Q out'.
Proof.
  intros Hattrs. revert out l.
  induction names as [|attr names IH]; intros out l Hout; cbn [scan_attrs].
  - now intros [= <- _].
  - destruct (startswith attr "_") eqn:Hs; [now apply IH|].
    destruct (assoc attr attrs) as [[[x call]|e]|] eqn:E; try now apply IH.
    destruct (callable x) eqn:Hc; [now apply IH|].
    intros H. apply bind_returns in H. destruct H as (w & l1 & l2 & Hw & H & _).
    apply IH in H; [assumption|].
    apply good_dict_set; [|assumption].
    apply assoc_In in E. rewrite Forall_forall in Hattrs.
    apply Hattrs in E. simpl in E. now apply (E Hs Hc w l1).
Qed.

End Good.

Lemma NoDup_distinct (l : list string) : NoDup l -> distinct l = true.
Proof.
  induction 1 as [|x l Hx _ IH]; simpl; [reflexivity|].
  rewrite IH, andb_true_r. apply negb_true_iff.
  destruct (existsb (String.eqb x) l) eqn:E; [|reflexivity].
  apply existsb_eqb_In in E. contradiction.
Qed.

Lemma normalized_dict (d : dict) :
  good_dict (fun w => normalized w = true) d -> normalized (VDict d) = true.
Proof.
  intros [Hk Hv]. simpl. apply andb_true_intro. split.
  - now apply NoDup_distinct.
  - apply forallb_forall. rewrite Forall_forall in Hv. auto.
Qed.

Lemma body_normalized (rt : runtime) (v : value) (sub : subresults)
    (w : value) (l : log) :
  json_MessageToDict rt ->
  (isinstance_Enum v = true ->
   forall x, py_getattr rt v "name" = Ok x -> normalized x = true) ->
  (String.eqb (type_name v) "AdTextAsset" = true ->
   forall x, py_getattr rt v "text" = Ok x -> normalized x = true) ->
  (unrecognised rt v = true -> normalized v = true) ->
  Forall (fun kc => good_call (fun w => normalized w = true) (snd kc))
    (sub_items sub) ->
  Forall (good_call (fun w => normalized w = true)) (sub_elems sub) ->
  match sub_pb sub with
  | PbListFields fields =>
      Forall (fun nc => good_call (fun w => normalized w = true) (snd nc)) fields
  | _ => True
  end ->
  Forall (fun nr => match snd nr with
                    | Ok xc =>
                        startswith (fst nr) "_" = false ->
                        callable (fst xc) = false ->
                        good_call (fun w => normalized w = true) (snd xc)
                    | Raise _ => True
                    end) (sub_attrs sub) ->
  format_output_value_body rt v sub = (Ok w, l) ->
  normalized w = true.
Proof.
  intros Hjson Hname Htext Hlast Hitems Helems Hpb Hattrs H.
  assert (Hnil : good_dict (fun w => normalized w = true) [])
    by (split; constructor).
  unfold format_output_value_body in H. apply try_except_returns in H.
  destruct H as [H | (e0 & l0 & l1 & _ & H & _)].
  2:{ unfold format_output_value_except in H.
      apply bind_returns in H. destruct H as (? & ? & ? & _ & H & _).
      apply bind_returns in H. destruct H as (s & ? & ? & _ & H & _).
      injection H as <- _. reflexivity. }
  unfold format_output_value_try, unrecognised in *.
  destruct (is_none v).
  { injection H as <- _. reflexivity. }
  destruct (isinstance_Enum v).
  { unfold lift in H. injection H as H _. now apply Hname. }
  apply bind_returns in H. destruct H as (text & l1 & l2 & Ht & H & _).
  destruct text.
  { destruct (String.eqb (type_name v) "AdTextAsset"); [|discriminate].
    unfold lift in H. injection H as H _. now apply Htext. }
  destruct (isinstance_Mapping v).
  { apply bind_returns in H. destruct H as (out & l3 & l4 & Hout & H & _).
    apply bind_returns in H. destruct H as (? & ? & ? & _ & H & _).
    injection H as <- _. apply normalized_dict.
    eapply convert_items_good; [exact Hitems | exact Hnil | exact Hout]. }
  apply bind_returns in H. destruct H as (repeated & l3 & l4 & Hr & H & _).
  unfold lift in Hr. injection Hr as Hr _. rewrite Hr in Hlast.
  destruct repeated.
  { apply bind_returns in H. destruct H as (ws & l5 & l6 & Hws & H & _).
    apply bind_returns in H. destruct H as (? & ? & ? & _ & H & _).
    injection H as <- _. simpl. apply forallb_forall.
    apply (convert_elems_good (Q := fun w => normalized w = true)) in Hws;
      [|exact Helems].
    rewrite Forall_forall in Hws. exact Hws. }
  destruct (isinstance_Message v).
  { destruct (sub_pb sub) as [| |e|fields].
    - apply bind_returns in H. destruct H as (out & l5 & l6 & Hout & H & _).
      injection H as <- _. apply normalized_dict.
      eapply scan_attrs_good; [exact Hattrs | exact Hnil | exact Hout].
    - apply bind_returns in H. destruct H as (out & l5 & l6 & Hout & H & _).
      injection H as <- _. apply normalized_dict.
      eapply scan_attrs_good; [exact Hattrs | exact Hnil | exact Hout].
    - discriminate.
    - apply bind_returns in H. destruct H as (out & l5 & l6 & Hout & H & _).
      injection H as <- _. apply normalized_dict.
      eapply convert_fields_good; [exact Hpb | exact Hnil | exact Hout]. }
  destruct (protobuf_imported rt && isinstance_ProtobufMessage v).
  { unfold lift in H. injection H as H _. now apply (Hjson v). }
  injection H as <- _. now apply Hlast.
Qed.

Lemma is_text_normalized (attrs : list (string * result value)) (name : string)
    (x : value) :
  is_text (assoc name attrs) = true ->
  match assoc name attrs with
  | Some r => r
  | None => Raise (AttributeError name)
  end = Ok x ->
  normalized x = true.
Proof.
  destruct (assoc name attrs) as [[y|e]|]; simpl; try discriminate.
  intros Hy [= <-]. now destruct y.
Qed.

Lemma normalized_api_typed (rt : runtime) :
  standard_builtins rt ->
  json_MessageToDict rt ->
  forall v, api_typed v = true -> json_convertible rt v = true ->
  good_call (fun w => normalized w = true) (format_output_value rt v).
Proof.
  intros Hrt Hjson v.
  induction v as [| | | | | | |xs IH|kvs IH|o IHattrs IHitems IHelems IHpb]
    using value_nested_ind; intros Htyped Hconv w l H;
    rewrite format_output_value_eq in H;
    (apply body_normalized in H; [exact H | assumption | .. ]);
    try discriminate; try (now constructor); try exact I;
    try (intros _; reflexivity).
  - intros Hu. exfalso. unfold unrecognised, _is_repeated_container in Hu.
    simpl in Hu. destruct Hrt as [Hlist _]. rewrite Hlist in Hu.
    rewrite andb_false_r in Hu. discriminate.
  - cbn [subresults_of sub_elems]. apply Forall_map.
    simpl in Htyped, Hconv. rewrite forallb_forall in Htyped, Hconv.
    rewrite Forall_forall in *. auto.
  - cbn [subresults_of sub_items]. apply Forall_map.
    simpl in Htyped, Hconv. rewrite forallb_forall in Htyped, Hconv.
    rewrite Forall_forall in *. intros kx Hin. simpl. auto.
  - simpl. intros Henum x. simpl in Htyped. rewrite Henum in Htyped.
    repeat (apply andb_prop in Htyped; destruct Htyped as [Htyped ?]).
    now apply is_text_normalized.
  - simpl. intros Hcls x. simpl in Htyped. rewrite Hcls in Htyped.
    repeat (apply andb_prop in Htyped; destruct Htyped as [Htyped ?]).
    now apply is_text_normalized.
  - intros Hu. exfalso. cbn [json_convertible] in Hconv.
    rewrite Hu in Hconv. discriminate.
  - cbn [subresults_of sub_items]. apply Forall_map.
    simpl in Htyped. cbn [json_convertible] in Hconv.
    repeat (apply andb_prop in Htyped; destruct Htyped as [Htyped ?]).
    repeat (apply andb_prop in Hconv; destruct Hconv as [Hconv ?]).
    repeat match goal with Hf : forallb _ (o_items o) = true |- _ =>
      rewrite forallb_forall in Hf end.
    rewrite Forall_forall in *. intros kx Hin. simpl. auto.
  - cbn [subresults_of sub_elems]. apply Forall_map.
    simpl in Htyped. cbn [json_convertible] in Hconv.
    repeat (apply andb_prop in Htyped; destruct Htyped as [Htyped ?]).
    repeat (apply andb_prop in Hconv; destruct Hconv as [Hconv ?]).
    repeat match goal with Hf : forallb _ (o_elems o) = true |- _ =>
      rewrite forallb_forall in Hf end.
    rewrite Forall_forall in *. auto.
  - cbn [subresults_of sub_pb]. simpl in Htyped.
    cbn [json_convertible] in Hconv.
    repeat (apply andb_prop in Htyped; destruct Htyped as [Htyped ?]).
    repeat (apply andb_prop in Hconv; destruct Hconv as [Hconv ?]).
    destruct (o_pb o) as [| | |fields]; try exact I.
    apply Forall_map. simpl in IHpb.
    repeat match goal with Hf : forallb _ fields = true |- _ =>
      rewrite forallb_forall in Hf end.
    rewrite Forall_forall in *. intros nx Hin. simpl. auto.
  - cbn [subresults_of sub_attrs]. apply Forall_map.
    simpl in Htyped. cbn [json_convertible] in Hconv.
    repeat (apply andb_prop in Htyped; destruct Htyped as [Htyped ?]).
    repeat (apply andb_prop in Hconv; destruct Hconv as [Hconv ?]).
    repeat match goal with Hf : forallb _ (o_attrs o) = true |- _ =>
      rewrite forallb_forall in Hf end.
    rewrite Forall_forall in *. intros [n [x|e]] Hin; simpl; [|exact I].
    intros Hs Hc.
    specialize (IHattrs _ Hin). unfold holds_in_attr in IHattrs.
    simpl in IHattrs. apply IHattrs.
    + match goal with Hf : forall _, In _ (o_attrs o) -> match _ with Ok x => api_typed x | _ => _ end = true |- _ =>
        apply (Hf _ Hin) end.
    + match goal with Hf : forall _, In _ (o_attrs o) -> match _ with Ok x => _ || _ || json_convertible rt x | _ => _ end = true |- _ =>
        specialize (Hf _ Hin); simpl in Hf; rewrite Hs, Hc in Hf; exact Hf end.
Qed.

(** X9. For a value of the object model that holds, where the normaliser
    may convert it, no byte string and no object of a type the normaliser
    does not recognise, whatever [format_output_value] returns is a
    Normalized Value: None, a boolean, a number, a string, a list of such,
    or a dict with distinct string keys to such.  Methods and private
    attributes, which are probed but never converted, are not constrained.
    (The runtime is Python's: lists are iterable, and [MessageToDict]
    returns JSON data.) *)
Theorem normalizer_result_is_json (rt : runtime) (v w : value) (l : log) :
  standard_builtins rt ->
  json_MessageToDict rt ->
  api_typed v = true ->
  json_convertible rt v = true ->
  format_output_value rt v = (Ok w, l) ->
  normalized w = true.
Proof.
  intros Hrt Hjson Htyped Hconv H.
  exact (normalized_api_typed Hrt Hjson v Htyped Hconv H).
Qed.

Lemma normalizer_result_is_json_witness :
  json_convertible sample_runtime
    (VList [repeated_scalar [VInt 1; VInt 2; VInt 3]; VObj iterable_message;
            sample_row]) = true /\
  exists w,
    format_output_value sample_runtime
      (VList [repeated_scalar [VInt 1; VInt 2; VInt 3]; VObj iterable_message;
              sample_row]) = (Ok w, []) /\
    normalized w = true.
Proof.
  split; [reflexivity|]. eexists. split; [reflexivity|].
  eapply (@normalizer_result_is_json sample_runtime
            (VList [repeated_scalar [VInt 1; VInt 2; VInt 3];
                    VObj iterable_message; sample_row])).
  - split.
    + intros xs. reflexivity.
    + intros x Hx. destruct x; try discriminate; split; reflexivity.
  - intros m x Hm. injection Hm as <-. reflexivity.
  - reflexivity.
  - reflexivity.
  - reflexivity.
Defined.






(** * Credentials and the client *)

(** X11. Credentials are created exactly when the three OAuth variables are
    set and not empty (an empty value counts as missing, and the failure is
    a ValueError that names the three variables).  The credentials created
    carry the three values as read, no access token, and only the read-only
    AdWords scope. *)
Theorem create_credentials_iff (env : environ) :
  ((exists c, _create_credentials env = Ok c) <->
   env_truthy (env "GOOGLE_ADS_CLIENT_ID") = true /\
   env_truthy (env "GOOGLE_ADS_CLIENT_SECRET") = true /\
   env_truthy (env "GOOGLE_ADS_REFRESH_TOKEN") = true) /\
  (forall c,
     _create_credentials env = Ok c ->
     cred_client_id c = env "GOOGLE_ADS_CLIENT_ID" /\
     cred_client_secret c = env "GOOGLE_ADS_CLIENT_SECRET" /\
     cred_refresh_token c = env "GOOGLE_ADS_REFRESH_TOKEN" /\
     cred_token c = None /\
     cred_scopes c = ["https://www.googleapis.com/auth/adwords"]) /\
  (forall e,
     _create_credentials env = Raise e ->
     e = ValueError
           "Missing OAuth credentials. Set GOOGLE_ADS_CLIENT_ID, GOOGLE_ADS_CLIENT_SECRET, and GOOGLE_ADS_REFRESH_TOKEN.").
Proof.
  unfold _create_credentials. cbn [forallb].
  destruct (env_truthy (env "GOOGLE_ADS_CLIENT_ID"));
    destruct (env_truthy (env "GOOGLE_ADS_CLIENT_SECRET"));
    destruct (env_truthy (env "GOOGLE_ADS_REFRESH_TOKEN")); cbn [andb negb];
    (split; [split; [intros [c H]; try discriminate; auto
                    | intros (? & ? & ?); try discriminate; eauto]
            | split; [intros c [= <-]; auto | intros e [= <-]; reflexivity]]).
Qed.

Lemma create_credentials_iff_witness :
  _create_credentials
    (fun name => if String.eqb name "GOOGLE_ADS_CLIENT_SECRET" then Some ""
                 else Some "x")
  = Raise (ValueError
             "Missing OAuth credentials. Set GOOGLE_ADS_CLIENT_ID, GOOGLE_ADS_CLIENT_SECRET, and GOOGLE_ADS_REFRESH_TOKEN.").
Proof.
  destruct (_create_credentials
              (fun name => if String.eqb name "GOOGLE_ADS_CLIENT_SECRET" then Some ""
                           else Some "x")) as [c|e] eqn:E.
  - discriminate E.
  - f_equal.
    apply (proj2 (proj2 (create_credentials_iff
             (fun name => if String.eqb name "GOOGLE_ADS_CLIENT_SECRET" then Some ""
                          else Some "x")))).
    exact E.
Defined.

(** X12. The client is built in three steps that fail in order: OAuth values
    that are missing or empty stop it first, whatever the developer token
    is; then a developer token that is not set.  A developer token that is
    set but empty is not refused: it is handed to the constructor of the
    client, with the credentials and the login customer id, set or not. *)
Theorem get_googleads_client_steps (client : Type)
    (GoogleAdsClient : Credentials -> string -> option string -> result client)
    (env : environ) :
  (forallb env_truthy
     [env "GOOGLE_ADS_CLIENT_ID"; env "GOOGLE_ADS_CLIENT_SECRET";
      env "GOOGLE_ADS_REFRESH_TOKEN"] = false ->
   _get_googleads_client GoogleAdsClient env
   = Raise (ValueError
              "Missing OAuth credentials. Set GOOGLE_ADS_CLIENT_ID, GOOGLE_ADS_CLIENT_SECRET, and GOOGLE_ADS_REFRESH_TOKEN.")) /\
  (forallb env_truthy
     [env "GOOGLE_ADS_CLIENT_ID"; env "GOOGLE_ADS_CLIENT_SECRET";
      env "GOOGLE_ADS_REFRESH_TOKEN"] = true ->
   (env "GOOGLE_ADS_DEVELOPER_TOKEN" = None ->
    _get_googleads_client GoogleAdsClient env
    = Raise (ValueError
               "GOOGLE_ADS_DEVELOPER_TOKEN environment variable not set.")) /\
   (forall dev_token,
      env "GOOGLE_ADS_DEVELOPER_TOKEN" = Some dev_token ->
      exists c,
        _create_credentials env = Ok c /\
        _get_googleads_client GoogleAdsClient env
        = GoogleAdsClient c dev_token (env "GOOGLE_ADS_LOGIN_CUSTOMER_ID"))).
Proof.
  unfold _get_googleads_client, _create_credentials, _get_developer_token,
    _get_login_customer_id.
  split.
  - intros ->. reflexivity.
  - intros ->. cbn [negb]. split.
    + intros ->. reflexivity.
    + intros dev_token ->. eexists. split; reflexivity.
Qed.

Lemma get_googleads_client_steps_witness :
  _get_googleads_client (fun c t l => Ok (c, t, l))
    (fun name => if String.eqb name "GOOGLE_ADS_DEVELOPER_TOKEN" then Some ""
                 else if String.eqb name "GOOGLE_ADS_LOGIN_CUSTOMER_ID" then None
                 else Some "x")
  = Ok ({| cred_token := None; cred_refresh_token := Some "x";
           cred_token_uri := "https://oauth2.googleapis.com/token";
           cred_client_id := Some "x"; cred_client_secret := Some "x";
           cred_scopes := ["https://www.googleapis.com/auth/adwords"] |},
        "", None).
Proof.
  destruct (proj2 (proj2 (get_googleads_client_steps
              (fun c t l => Ok (c, t, l))
              (fun name => if String.eqb name "GOOGLE_ADS_DEVELOPER_TOKEN" then Some ""
                           else if String.eqb name "GOOGLE_ADS_LOGIN_CUSTOMER_ID" then None
                           else Some "x")) eq_refl) "" eq_refl)
    as (c & Hc & Hrun).
  rewrite Hrun. injection Hc as <-. reflexivity.
Defined.

(** * The dashboard *)

(** The row [format_output_row] returns, for the theorems below. *)
Lemma format_output_row_keys_aux (rt : runtime) (row : value)
    (attributes : list string) :
  fst (format_output_row rt row attributes)
  = Ok (fold_left (fun d p => dict_set p (cell rt row p) d) attributes []) /\
  (forall p,
     In p (dict_keys
             (fold_left (fun d p => dict_set p (cell rt row p) d) attributes []))
     <-> In p attributes) /\
  NoDup (dict_keys
           (fold_left (fun d p => dict_set p (cell rt row p) d) attributes [])) /\
  (forall p, In p attributes ->
     dict_get p (fold_left (fun d p => dict_set p (cell rt row p) d) attributes [])
     = Some (cell rt row p)).
Proof.
  unfold format_output_row. rewrite row_loop_writes. split; [reflexivity|].
  rewrite writes_keys. simpl. split; [|split].
  - intros p. rewrite first_occurrences_from_In. simpl. tauto.
  - apply first_occurrences_from_NoDup.
  - intros p Hin. rewrite writes_get. apply existsb_eqb_In in Hin.
    now rewrite Hin.
Qed.

Lemma dict_get_set_default (k name : string) (default : value) (st : session) :
  dict_get k (set_default name default st)
  = match dict_get k st with
    | Some v => Some v
    | None => if String.eqb k name then Some default else None
    end.
Proof.
  unfold set_default. destruct (dict_get name st) as [v0|] eqn:E.
  - destruct (dict_get k st) eqn:Ek; [reflexivity|].
    destruct (String.eqb_spec k name) as [->|_]; [congruence | reflexivity].
  - destruct (String.eqb_spec k name) as [->|Hne].
    + rewrite dict_get_set_same, E. reflexivity.
    + rewrite dict_get_set_other by congruence.
      now destruct (dict_get k st).
Qed.

Lemma set_default_present (name : string) (default : value) (st : session) :
  dict_get name st <> None -> set_default name default st = st.
Proof. unfold set_default. now destruct (dict_get name st). Qed.

(** X13. [init_session_state] never overwrites: every name the session
    already holds keeps its value, whatever it is; the five names of the
    dashboard that are missing get their defaults and no other name
    appears; and running it again changes nothing. *)
Theorem init_session_state_keeps (st : session) :
  (forall k v, dict_get k st = Some v ->
     dict_get k (init_session_state st) = Some v) /\
  (forall k, dict_get k st = None ->
     dict_get k (init_session_state st)
     = if String.eqb k "api_url" then Some (VStr "")
       else if String.eqb k "api_token" then Some (VStr "")
       else if String.eqb k "connected" then Some (VBool false)
       else if String.eqb k "account_info" then Some VNone
       else if String.eqb k "last_result" then Some VNone
       else None) /\
  init_session_state (init_session_state st) = init_session_state st.
Proof.
  assert (G : forall k,
            dict_get k (init_session_state st)
            = match dict_get k st with
              | Some v => Some v
              | None =>
                  if String.eqb k "api_url" then Some (VStr "")
                  else if String.eqb k "api_token" then Some (VStr "")
                  else if String.eqb k "connected" then Some (VBool false)
                  else if String.eqb k "account_info" then Some VNone
                  else if String.eqb k "last_result" then Some VNone
                  else None
              end).
  { intros k. unfold init_session_state. cbv zeta.
    rewrite !dict_get_set_default.
    destruct (dict_get k st); [reflexivity|].
    destruct (String.eqb k "api_url"); [reflexivity|].
    destruct (String.eqb k "api_token"); [reflexivity|].
    destruct (String.eqb k "connected"); [reflexivity|].
    destruct (String.eqb k "account_info"); reflexivity. }
  split; [|split].
  - intros k v H. now rewrite G, H.
  - intros k H. now rewrite G, H.
  - assert (P : forall name, In name ["api_url"; "api_token"; "connected";
                                       "account_info"; "last_result"] ->
                dict_get name (init_session_state st) <> None).
    { intros name Hin. rewrite G. destruct (dict_get name st); [discriminate|].
      simpl in Hin.
      destruct Hin as [<-|[<-|[<-|[<-|[<-|[]]]]]]; discriminate. }
    set (s1 := init_session_state st) in *.
    unfold init_session_state. cbv zeta.
    rewrite (@set_default_present "api_url") by (apply P; simpl; tauto).
    rewrite (@set_default_present "api_token") by (apply P; simpl; tauto).
    rewrite (@set_default_present "connected") by (apply P; simpl; tauto).
    rewrite (@set_default_present "account_info") by (apply P; simpl; tauto).
    apply set_default_present. apply P. simpl. tauto.
Qed.

Lemma init_session_state_keeps_witness :
  dict_get "api_url"
    (init_session_state [("api_url", VStr "https://ads.example.com")])
  = Some (VStr "https://ads.example.com").
Proof.
  apply (proj1 (init_session_state_keeps
                  [("api_url", VStr "https://ads.example.com")])).
  reflexivity.
Defined.

Lemma flatten_items_app (pre post : dict) (flat_row : dict) :
  flatten_items (pre ++ post) flat_row
  = flatten_items post (flatten_items pre flat_row).
Proof.
  revert flat_row. induction pre as [|[k v] pre IH]; intros flat_row; simpl.
  - reflexivity.
  - destruct v; apply IH.
Qed.

Lemma flatten_items_flat (row acc : dict) :
  NoDup (dict_keys acc ++ dict_keys row) ->
  Forall (fun kv => forall sub, snd kv <> VDict sub) row ->
  flatten_items row acc = acc ++ row.
Proof.
  revert acc. induction row as [|[k v] row IH]; intros acc Hnd Hflat; simpl.
  - now rewrite app_nil_r.
  - inversion Hflat as [|? ? Hv Hrow]; subst. simpl in Hv.
    assert (Hset : dict_set k v acc = acc ++ [(k, v)]).
    { apply dict_set_fresh. simpl in Hnd. apply NoDup_remove_2 in Hnd.
      intros Hin. apply Hnd. apply in_or_app. now left. }
    assert (Hnd' : NoDup (dict_keys (acc ++ [(k, v)]) ++ dict_keys row)).
    { unfold dict_keys in *. rewrite map_app. simpl.
      rewrite <- app_assoc. exact Hnd. }
    destruct v; try (rewrite Hset, IH by assumption; now rewrite <- app_assoc).
    exfalso. now apply (Hv kvs).
Qed.

(** X14. The flattening of the dashboard leaves a row alone when none of its
    values is a dict: in particular a row that [format_output_row] produced
    and whose cells are not dicts is displayed with the requested paths as
    its columns, in the order of the row. *)
Theorem flatten_row_of_flat_row (rt : runtime) (record : value)
    (attributes : list string) (out : dict) (l : log) :
  (forall row,
     NoDup (dict_keys row) ->
     Forall (fun kv => forall sub, snd kv <> VDict sub) row ->
     flatten_row row = row) /\
  (format_output_row rt record attributes = (Ok out, l) ->
   (forall p, In p attributes -> forall sub, cell rt record p <> VDict sub) ->
   flatten_row out = out /\
   dict_keys (flatten_row out) = first_occurrences attributes).
Proof.
  assert (F : forall row,
            NoDup (dict_keys row) ->
            Forall (fun kv => forall sub, snd kv <> VDict sub) row ->
            flatten_row row = row).
  { intros row Hnd Hflat. unfold flatten_row.
    now rewrite flatten_items_flat. }
  split; [exact F|].
  intros Hrun Hcells.
  destruct (format_output_row_keys_aux rt record attributes)
    as (Hout & Hkeys & Hnd & Hget).
  rewrite Hrun in Hout. simpl in Hout. injection Hout as Hout.
  assert (E : flatten_row out = out).
  { apply F; [now rewrite Hout|].
    rewrite Forall_forall. intros [k v] Hin sub. simpl.
    assert (Hk : In k (dict_keys out)) by (apply in_map_iff; now exists (k, v)).
    rewrite Hout in Hk, Hin. apply Hkeys in Hk.
    assert (Hv : dict_get k
                   (fold_left (fun d p => dict_set p (cell rt record p) d)
                      attributes []) = Some v).
    { clear -Hin Hnd. unfold dict_get, dict_keys in *.
      induction (fold_left (fun d p => dict_set p (cell rt record p) d)
                   attributes []) as [|[k' v'] d IH]; [contradiction|].
      simpl in *. inversion Hnd; subst.
      destruct Hin as [[= -> ->]|Hin]; [now rewrite String.eqb_refl|].
      destruct (String.eqb_spec k k') as [->|_]; [|auto].
      exfalso. match goal with H : ~ In _ _ |- _ => apply H end.
      apply in_map_iff. now exists (k', v). }
    rewrite (Hget k Hk) in Hv. injection Hv as <-. now apply Hcells. }
  split; [exact E|]. rewrite E, Hout. unfold first_occurrences.
  now rewrite writes_keys.
Qed.

Lemma flatten_row_of_flat_row_witness :
  flatten_row [("campaign.id", VInt 123); ("campaign.name", VStr "Spring Sale")]
  = [("campaign.id", VInt 123); ("campaign.name", VStr "Spring Sale")].
Proof.
  apply (proj2 (@flatten_row_of_flat_row sample_runtime sample_row
                  ["campaign.id"; "campaign.name"]
                  [("campaign.id", VInt 123); ("campaign.name", VStr "Spring Sale")]
                  [])).
  - reflexivity.
  - intros p [<-|[<-|[]]] sub; vm_compute; discriminate.
Defined.

(** X15. The flattening drops an entry whose value is an empty dict: the row
    is flattened as if the entry were not there, so a field that was
    normalised to an empty dict has no column in the table. *)
Theorem flatten_row_drops_empty_dict (pre post : dict) (key : string) :
  flatten_row (pre ++ (key, VDict []) :: post) = flatten_row (pre ++ post).
Proof.
  unfold flatten_row. rewrite !flatten_items_app. reflexivity.
Qed.

Lemma flatten_sub_writes (key : string) (sub acc : dict) :
  flatten_sub key sub acc
  = fold_left (fun d kw => dict_set (fst kw) (snd kw) d)
      (map (fun kv => (String.append key (String "." (fst kv)), snd kv)) sub) acc.
Proof.
  revert acc. induction sub as [|[sk sv] sub IH]; intros acc; simpl;
    [reflexivity | apply IH].
Qed.

(** X16. The flattening goes one level deep and no further: an entry whose
    value is a dict with distinct keys is replaced, in place, by one entry
    [key.sub_key] per entry of that dict, with the sub-value as it is, even
    when the sub-value is itself a dict. *)
Theorem flatten_row_one_level (key : string) (sub : dict) :
  NoDup (dict_keys sub) ->
  flatten_row [(key, VDict sub)]
  = map (fun kv => (String.append key (String "." (fst kv)), snd kv)) sub.
Proof.
  intros Hnd. unfold flatten_row. cbn [flatten_items].
  rewrite flatten_sub_writes.
  change (fold_left (fun d kw => dict_set (fst kw) (snd kw) d)
            (map (fun kv => (String.append key (String "." (fst kv)), snd kv)) sub)
            [])
    with (dict_of_writes
            (map (fun kv => (String.append key (String "." (fst kv)), snd kv)) sub)).
  apply dict_of_writes_distinct. rewrite map_map. simpl.
  unfold dict_keys in Hnd. clear -Hnd.
  induction sub as [|[sk sv] sub IH]; simpl; [constructor|].
  inversion Hnd; subst. constructor; [|auto].
  intros Hin. apply in_map_iff in Hin. destruct Hin as [[sk' sv'] [E Hin]].
  simpl in E.
  assert (sk' = sk).
  { clear -E. induction key as [|c key IH]; simpl in E.
    - now injection E.
    - injection E as E. auto. }
  subst sk'. match goal with H : ~ In _ _ |- _ => apply H end.
  apply in_map_iff. now exists (sk, sv').
Qed.

Lemma flatten_row_one_level_witness :
  flatten_row [("campaign", VDict [("id", VInt 1);
                                   ("budget", VDict [("amount", VInt 5)])])]
  = [("campaign.id", VInt 1); ("campaign.budget", VDict [("amount", VInt 5)])].
Proof.
  apply (@flatten_row_one_level "campaign"
           [("id", VInt 1); ("budget", VDict [("amount", VInt 5)])]).
  repeat constructor; simpl; intuition discriminate.
Defined.

(** X17. The rows of a result are flattened one by one, in order; the loop
    fails, with the AttributeError of [items], exactly when some row is not
    a dict. *)
Theorem flatten_rows_iff (data : list value) :
  (forall flat_data,
     flatten_rows data = Ok flat_data ->
     Forall2 (fun row flat => exists items, row = VDict items
                                            /\ flat = flatten_row items)
       data flat_data) /\
  ((exists e, flatten_rows data = Raise e) <->
   exists row, In row data /\ forall items, row <> VDict items) /\
  (forall e, flatten_rows data = Raise e -> e = AttributeError "items").
Proof.
  induction data as [|row data (IH1 & IH2 & IH3)]; simpl.
  - split; [|split].
    + intros flat_data [= <-]. constructor.
    + split; [intros [e H]; discriminate | intros (row & [] & _)].
    + discriminate.
  - destruct row;
      try (split; [discriminate | split;
           [split; [intros _; eexists; split; [left; reflexivity | discriminate]
                   | intros _; eexists; reflexivity]
           | intros e [= <-]; reflexivity]]).
    destruct (flatten_rows data) as [flat|e0] eqn:E.
    + split; [|split].
      * intros flat_data [= <-]. constructor; [eauto | now apply IH1].
      * split; [intros [e H]; discriminate|].
        intros (row & [<-|Hin] & Hrow); [now elim (Hrow kvs)|].
        destruct (proj2 IH2) as [e He]; [eauto | discriminate].
      * discriminate.
    + split; [discriminate | split].
      * split; [|intros _; eauto].
        intros _. destruct (proj1 IH2) as (row & Hin & Hrow); eauto.
      * intros e [= <-]. now apply IH3.
Qed.

Lemma flatten_rows_iff_witness :
  flatten_rows [VDict [("campaign.id", VInt 1)]; VStr "oops"]
  = Raise (AttributeError "items").
Proof.
  destruct (flatten_rows [VDict [("campaign.id", VInt 1)]; VStr "oops"])
    as [flat|e] eqn:E.
  - discriminate E.
  - f_equal.
    apply (proj2 (proj2 (flatten_rows_iff
             [VDict [("campaign.id", VInt 1)]; VStr "oops"]))).
    exact E.
Defined.

Lemma rstrip_append (c : ascii) (s : string) :
  rstrip c (String.append s (String c EmptyString)) = rstrip c s.
Proof.
  induction s as [|a s IH]; simpl.
  - now rewrite Ascii.eqb_refl.
  - now rewrite IH.
Qed.

(** X18. A slash at the end of the API URL makes no difference: the request
    goes to the same URL, and [make_request] returns the same result, as
    without it. *)
Theorem make_request_trailing_slash (http : request -> sent) (st : session)
    (api_url endpoint method : string) (data : option value)
    (expect_json : bool) :
  dict_get "api_url" st = Some (VStr api_url) ->
  make_request http
    (dict_set "api_url" (VStr (String.append api_url "/")) st)
    endpoint method data expect_json
  = make_request http st endpoint method data expect_json.
Proof.
  intros Hurl. unfold make_request, session_attr.
  rewrite dict_get_set_same, Hurl, rstrip_append.
  rewrite dict_get_set_other by discriminate. reflexivity.
Qed.

Lemma make_request_trailing_slash_witness :
  make_request sample_http
    (dict_set "api_url" (VStr "https://ads.example.com/") sample_session)
    "/healthz" "GET" None false
  = make_request sample_http sample_session "/healthz" "GET" None false.
Proof.
  apply (@make_request_trailing_slash sample_http sample_session
           "https://ads.example.com").
  reflexivity.
Defined.

Lemma make_request_sends (http : request -> sent) (st : session)
    (api_url : string) (api_token : value) (endpoint method : string)
    (data : option value) (expect_json : bool) :
  dict_get "api_url" st = Some (VStr api_url) ->
  dict_get "api_token" st = Some api_token ->
  exists rq,
    req_url rq = String.append (rstrip "/" api_url) endpoint /\
    (req_method rq = GET <-> method = "GET") /\
    make_request http st endpoint method data expect_json
    = match http rq with
      | Replied r =>
          match resp_status_error r with
          | Some msg => except_RequestException (RequestException msg (Some r))
          | None =>
              if negb expect_json then
                Ok (VDict [("success", VBool true); ("data", VStr (resp_text r))])
              else
                match resp_json r with
                | JsonData j => Ok (VDict [("success", VBool true); ("data", j)])
                | JsonRaises (JSONDecodeError _ _) =>
                    Ok (VDict [("success", VBool true);
                               ("data", VStr (resp_text r))])
                | JsonRaises e => except_RequestException e
                end
          end
      | SendRaises e => except_RequestException e
      end.
Proof.
  intros Hurl Htoken. unfold make_request, session_attr.
  rewrite Hurl, Htoken. cbv zeta.
  destruct (String.eqb method "GET") eqn:Em.
  - eexists. split; [|split; [|reflexivity]]; [reflexivity|].
    split; [intros _; now apply String.eqb_eq | reflexivity].
  - eexists. split; [|split; [|reflexivity]]; [reflexivity|].
    split; [discriminate | intros ->; discriminate].
Qed.

(** X19. Once the session holds a string [api_url] and an [api_token],
    [make_request] sends one request, a GET for the method "GET" and a POST
    for any other, to the API URL without its trailing slashes followed by
    the endpoint.  It returns [success] true with [data] exactly when the
    server replied with a status that is not an error and, where JSON is
    expected, [json()] returned or raised JSONDecodeError: the data are the
    decoded body, and the text where no JSON is expected or the body is not
    JSON.  It returns [success] false with [error] exactly when the status
    is an error or a RequestException was raised.  An exception that is not
    a RequestException, raised by the request or by [json()], is not
    handled: it leaves [make_request].  Nothing else happens. *)
Theorem make_request_result (http : request -> sent) (st : session)
    (api_url : string) (api_token : value) (endpoint method : string)
    (data : option value) (expect_json : bool) :
  dict_get "api_url" st = Some (VStr api_url) ->
  dict_get "api_token" st = Some api_token ->
  exists rq,
    req_url rq = String.append (rstrip "/" api_url) endpoint /\
    (req_method rq = GET <-> method = "GET") /\
    (forall x,
       make_request http st endpoint method data expect_json
       = Ok (VDict [("success", VBool true); ("data", x)]) <->
       exists r,
         http rq = Replied r /\ resp_status_error r = None /\
         (expect_json = false /\ x = VStr (resp_text r) \/
          expect_json = true /\ resp_json r = JsonData x \/
          expect_json = true /\ x = VStr (resp_text r) /\
          exists msg r', resp_json r = JsonRaises (JSONDecodeError msg r'))) /\
    (forall x,
       make_request http st endpoint method data expect_json
       = Ok (VDict [("success", VBool false); ("error", x)]) <->
       exists msg r',
         x = error_message msg r' /\
         ((exists r, http rq = Replied r /\ resp_status_error r = Some msg /\
                     r' = Some r) \/
          http rq = SendRaises (RequestException msg r') \/
          http rq = SendRaises (JSONDecodeError msg r') \/
          exists r, http rq = Replied r /\ resp_status_error r = None /\
                    expect_json = true /\
                    resp_json r = JsonRaises (RequestException msg r'))) /\
    (forall e,
       make_request http st endpoint method data expect_json = Raise e <->
       http rq = SendRaises (NotRequestException e) \/
       exists r, http rq = Replied r /\ resp_status_error r = None /\
                 expect_json = true /\
                 resp_json r = JsonRaises (NotRequestException e)) /\
    ((exists x, make_request http st endpoint method data expect_json
                = Ok (VDict [("success", VBool true); ("data", x)])) \/
     (exists x, make_request http st endpoint method data expect_json
                = Ok (VDict [("success", VBool false); ("error", x)])) \/
     (exists e, make_request http st endpoint method data expect_json
                = Raise e)).
Proof.
  intros Hurl Htoken.
  destruct (@make_request_sends http st api_url api_token endpoint method data
              expect_json Hurl Htoken) as (rq & Hu & Hm & ->).
  exists rq. split; [exact Hu|]. split; [exact Hm|].
  destruct (http rq) as [r|[msg r'|msg r'|e0]].
  - destruct (resp_status_error r) as [m|] eqn:Es.
    + cbn [except_RequestException]. split; [|split; [|split]].
      * intros x. split; [discriminate|].
        intros (r0 & [= <-] & Hs & _). congruence.
      * intros x. split.
        -- intros [= <-]. exists m, (Some r). split; [reflexivity|].
           left. exists r. auto.
        -- intros (msg & r' & -> & [(r0 & [= <-] & Hs & ->) | [H | [H |
               (r0 & [= <-] & Hs & _)]]]); try discriminate; congruence.
      * intros e. split; [discriminate|].
        intros [H | (r0 & [= <-] & Hs & _)]; [discriminate | congruence].
      * right. left. eexists. reflexivity.
    + destruct expect_json; cbn [negb].
      * destruct (resp_json r) as [j|[msg r'|msg r'|e0]] eqn:Ej;
          cbn [except_RequestException].
        -- split; [|split; [|split]].
           ++ intros x. split.
              ** intros [= <-]. exists r. repeat split; auto.
              ** intros (r0 & [= <-] & _ & [[H _] | [[_ H] |
                     (_ & _ & m & r'' & H)]]); congruence.
           ++ intros x. split; [discriminate|].
              intros (msg & r' & _ & [(r0 & [= <-] & Hs & _) | [H | [H |
                  (r0 & [= <-] & _ & _ & H)]]]); try discriminate; congruence.
           ++ intros e. split; [discriminate|].
              intros [H | (r0 & [= <-] & _ & _ & H)];
                congruence.
           ++ left. eexists. reflexivity.
        -- split; [|split; [|split]].
           ++ intros x. split.
              ** intros [= <-]. exists r. repeat split; auto.
                 right. right. repeat split; eauto.
              ** intros (r0 & [= <-] & _ & [[H _] | [[_ H] |
                     (_ & -> & _)]]); congruence.
           ++ intros x. split; [discriminate|].
              intros (m & r'' & _ & [(r0 & [= <-] & Hs & _) | [H | [H |
                  (r0 & [= <-] & _ & _ & H)]]]); try discriminate; congruence.
           ++ intros e. split; [discriminate|].
              intros [H | (r0 & [= <-] & _ & _ & H)];
                congruence.
           ++ left. eexists. reflexivity.
        -- split; [|split; [|split]].
           ++ intros x. split; [discriminate|].
              intros (r0 & [= <-] & _ & [[H _] | [[_ H] |
                  (_ & _ & m & r'' & H)]]); congruence.
           ++ intros x. split.
              ** intros [= <-]. exists msg, r'. split; [reflexivity|].
                 right. right. right. exists r. auto.
              ** intros (m & r'' & -> & [(r0 & [= <-] & Hs & _) | [H | [H |
                     (r0 & [= <-] & _ & _ & H)]]]); congruence.
           ++ intros e. split; [discriminate|].
              intros [H | (r0 & [= <-] & _ & _ & H)]; congruence.
           ++ right. left. eexists. reflexivity.
        -- split; [|split; [|split]].
           ++ intros x. split; [discriminate|].
              intros (r0 & [= <-] & _ & [[H _] | [[_ H] |
                  (_ & _ & m & r'' & H)]]); congruence.
           ++ intros x. split; [discriminate|].
              intros (m & r'' & _ & [(r0 & [= <-] & Hs & _) | [H | [H |
                  (r0 & [= <-] & _ & _ & H)]]]); try discriminate; congruence.
           ++ intros e. split.
              ** intros [= <-]. right. exists r. auto.
              ** intros [H | (r0 & [= <-] & _ & _ & H)]; congruence.
           ++ right. right. eexists. reflexivity.
      * split; [|split; [|split]].
        -- intros x. split.
           ++ intros [= <-]. exists r. repeat split; auto.
           ++ intros (r0 & [= <-] & _ & [[_ ->] | [[H _] | (H & _)]]);
                [reflexivity | discriminate | discriminate].
        -- intros x. split; [discriminate|].
           intros (m & r'' & _ & [(r0 & [= <-] & Hs & _) | [H | [H |
               (r0 & [= <-] & _ & H & _)]]]); try discriminate; congruence.
        -- intros e. split; [discriminate|].
           intros [H | (r0 & [= <-] & _ & H & _)];
             congruence.
        -- left. eexists. reflexivity.
  - cbn [except_RequestException]. split; [|split; [|split]].
    + intros x. split; [discriminate|]. intros (r0 & H & _). discriminate.
    + intros x. split.
      * intros [= <-]. exists msg, r'. split; [reflexivity|]. auto.
      * intros (m & r'' & -> & [(r0 & H & _) | [H | [H | (r0 & H & _)]]]);
          try discriminate. now injection H as <- <-.
    + intros e. split; [discriminate|].
      intros [H | (r0 & H & _)];
        congruence.
    + right. left. eexists. reflexivity.
  - cbn [except_RequestException]. split; [|split; [|split]].
    + intros x. split; [discriminate|]. intros (r0 & H & _). discriminate.
    + intros x. split.
      * intros [= <-]. exists msg, r'. split; [reflexivity|]. auto.
      * intros (m & r'' & -> & [(r0 & H & _) | [H | [H | (r0 & H & _)]]]);
          try discriminate. now injection H as <- <-.
    + intros e. split; [discriminate|].
      intros [H | (r0 & H & _)];
        congruence.
    + right. left. eexists. reflexivity.
  - cbn [except_RequestException]. split; [|split; [|split]].
    + intros x. split; [discriminate|]. intros (r0 & H & _). discriminate.
    + intros x. split; [discriminate|].
      intros (m & r'' & _ & [(r0 & H & _) | [H | [H | (r0 & H & _)]]]);
        congruence.
    + intros e. split.
      * intros [= <-]. now left.
      * intros [H | (r0 & H & _)]; [now injection H as <- | discriminate].
    + right. right. eexists. reflexivity.
Qed.

Lemma make_request_result_witness :
  dict_get "api_url" sample_session = Some (VStr "https://ads.example.com") /\
  make_request deep_http sample_session "/api/info" "GET" None true
  = Raise RecursionError /\
  make_request deep_http sample_session "/api/info" "GET" None false
  = Ok (VDict [("success", VBool true); ("data", VStr "[[[[[[[[")]) /\
  make_request sample_http sample_session "/api/info" "GET" None true
  = Ok (VDict [("success", VBool false); ("error", VStr "unknown endpoint")]) /\
  exists rq,
    req_url rq
    = String.append (rstrip "/" "https://ads.example.com") "/api/info" /\
    (forall e,
       make_request deep_http sample_session "/api/info" "GET" None true
       = Raise e <->
       deep_http rq = SendRaises (NotRequestException e) \/
       exists r, deep_http rq = Replied r /\ resp_status_error r = None /\
                 true = true /\
                 resp_json r = JsonRaises (NotRequestException e)).
Proof.
  split; [reflexivity|]. split; [reflexivity|]. split; [reflexivity|].
  split; [reflexivity|].
  destruct (@make_request_result deep_http sample_session
              "https://ads.example.com" (VStr "secret") "/api/info" "GET"
              None true eq_refl eq_refl)
    as (rq & Hu & _ & _ & _ & He & _).
  exists rq. split; [exact Hu | exact He].
Defined.

Lemma make_request_shape (http : request -> sent) (st : session)
    (endpoint method : string) (data : option value) (expect_json : bool)
    (result : value) :
  make_request http st endpoint method data expect_json = Ok result ->
  (exists x, result = VDict [("success", VBool true); ("data", x)]) \/
  (exists x, result = VDict [("success", VBool false); ("error", x)]).
Proof.
  unfold make_request, session_attr.
  destruct (dict_get "api_url" st) as [[]|]; try discriminate.
  destruct (dict_get "api_token" st) as [t|]; try discriminate.
  cbv zeta.
  destruct (String.eqb method "GET");
    match goal with |- context [http ?q] => destruct (http q) as [r|[| |]] end;
    cbn [except_RequestException]; try discriminate;
    try (intros [= <-]; right; eexists; reflexivity);
    (destruct (resp_status_error r); cbn [except_RequestException];
     [intros [= <-]; right; eexists; reflexivity|];
     destruct (negb expect_json); [intros [= <-]; left; eexists; reflexivity|];
     destruct (resp_json r) as [j|[| |]]; cbn [except_RequestException];
     try discriminate; intros [= <-];
     (left + right); eexists; reflexivity).
Qed.

(** X20. [test_connection] raises exactly when the health request raises,
    or the health check succeeded and the info request raises (an exception
    that [make_request] does not handle, or the session lacking [api_url]
    or [api_token]).  When it returns, a failed health check leaves the
    session as it was (the [connected] flag is never cleared); a health
    check that succeeded sets [connected], whether the info endpoint
    answers or not; [account_info] changes only to the data of an info
    request that succeeded; and no other name of the session changes. *)
Theorem test_connection_effects (http : request -> sent) (st : session) :
  (forall e,
     test_connection http st = Raise e <->
     make_request http st "/healthz" "GET" None false = Raise e \/
     (exists x, make_request http st "/healthz" "GET" None false
                = Ok (VDict [("success", VBool true); ("data", x)])) /\
     make_request http st "/api/info" "GET" None true = Raise e) /\
  (forall st' ok msg,
     test_connection http st = Ok (st', (ok, msg)) ->
     (ok = false -> st' = st) /\
     (ok = true -> dict_get "connected" st' = Some (VBool true)) /\
     (ok = true <->
      exists x, make_request http st "/healthz" "GET" None false
                = Ok (VDict [("success", VBool true); ("data", x)])) /\
     (dict_get "account_info" st' = dict_get "account_info" st \/
      exists info,
        make_request http st "/api/info" "GET" None true
        = Ok (VDict [("success", VBool true); ("data", info)]) /\
        dict_get "account_info" st' = Some info) /\
     (forall k, k <> "connected" -> k <> "account_info" ->
        dict_get k st' = dict_get k st)).
Proof.
  unfold test_connection.
  destruct (make_request http st "/healthz" "GET" None false) as [result|e0] eqn:Hh.
  2:{ split; [|discriminate].
      intros e; split.
      - intros [= ->]. now left.
      - intros [[= ->] | [[x Hx] _]]; [reflexivity | discriminate]. }
  destruct (make_request_shape _ _ _ _ _ _ Hh) as [[x ->] | [x ->]].
  - cbn [subscript dict_get truthy String.eqb Ascii.eqb Bool.eqb].
    destruct (make_request http st "/api/info" "GET" None true)
      as [info_result|e1] eqn:Hi.
    2:{ split; [|discriminate].
        intros e; split.
        - intros [= ->]. right. eauto.
        - intros [H | [_ [= ->]]]; [discriminate | reflexivity]. }
    destruct (make_request_shape _ _ _ _ _ _ Hi) as [[info ->] | [err ->]];
      cbn [subscript dict_get truthy String.eqb Ascii.eqb Bool.eqb].
    + split; [intros e; split; [discriminate | intros [H | [_ H]]; discriminate]|].
      intros st' ok msg [= <- <- <-].
      split; [discriminate|]. split; [intros _; apply dict_get_set_same|].
      split; [split; [eauto | reflexivity]|]. split.
      * right. exists info. split; [reflexivity|].
        rewrite dict_get_set_other by discriminate. apply dict_get_set_same.
      * intros k Hk1 Hk2. rewrite !dict_get_set_other by congruence. reflexivity.
    + split; [intros e; split; [discriminate | intros [H | [_ H]]; discriminate]|].
      intros st' ok msg [= <- <- <-].
      split; [discriminate|]. split; [intros _; apply dict_get_set_same|].
      split; [split; [eauto | reflexivity]|]. split.
      * left. apply dict_get_set_other. discriminate.
      * intros k Hk1 Hk2. rewrite dict_get_set_other by congruence. reflexivity.
  - cbn [subscript dict_get truthy String.eqb Ascii.eqb Bool.eqb].
    split.
    { intros e; split; [discriminate|].
      intros [H | [[y Hy] _]]; discriminate. }
    intros st' ok msg [= <- <- <-].
    split; [reflexivity|]. split; [discriminate|].
    split; [split; [discriminate | intros [y Hy]; discriminate]|].
    split; [now left | reflexivity].
Qed.

Lemma test_connection_effects_witness :
  test_connection sample_http sample_session
  = Ok (dict_set "connected" (VBool true) sample_session,
        (true, VStr "Connected (info endpoint not available)")) /\
  dict_get "connected" (dict_set "connected" (VBool true) sample_session)
  = Some (VBool true) /\
  test_connection deep_http sample_session = Raise RecursionError.
Proof.
  split; [reflexivity|]. split.
  - apply (proj2 (test_connection_effects sample_http sample_session)
             (dict_set "connected" (VBool true) sample_session) true
             (VStr "Connected (info endpoint not available)")).
    + reflexivity.
    + reflexivity.
  - apply (proj1 (test_connection_effects deep_http sample_session)
             RecursionError).
    right. split; [eexists|]; reflexivity.
Defined.
